(** * Ledgex: [scripts/make_pdf.py]

    A shallow embedding of the Markdown-to-HTML renderer
    ([markdown_to_html]) and of the conversion orchestrator
    ([convert_to_pdf], [main]), with the properties of the specification
    stated and proved over them.

    Python's [str] is a sequence of Unicode code points: it is modelled as
    [list N].  The renderer can only fail through the dictionary lookup
    [HEADING_STYLES[level]], so it is written in the [option] monad
    ([None] stands for [KeyError]); the orchestrator is written in a small
    state-and-exception monad over an explicit world (file system, the two
    output streams, the log of spawned processes). *)

From Stdlib Require Import ZArith NArith Lia Bool Ascii String.
From stdpp Require Import base option list gmap pretty.

Local Open Scope N_scope.

(** ** Text *)

Abbreviation str := (list N).

(** A string literal of the source, as code points. *)
Definition lit (s : string) : str :=
  (λ a, N_of_ascii a) <$> list_ascii_of_string s.
Arguments lit : simpl never.

(** The double quote and the apostrophe, which cannot be written inside a literal. *)
Definition dquote : N := 34.
Definition squote : N := 39.

(** The line feed, as the separator of [join]. *)
Definition newline : str := [0x0A].

(** [Py_UNICODE_ISSPACE]: the characters removed by [str.strip] and
    matched by [\s] in a [str] pattern. *)
Definition isspace (c : N) : bool :=
  ((0x09 <=? c) && (c <=? 0x0D)) || ((0x1C <=? c) && (c <=? 0x20))
  || (c =? 0x85) || (c =? 0xA0) || (c =? 0x1680)
  || ((0x2000 <=? c) && (c <=? 0x200A))
  || (c =? 0x2028) || (c =? 0x2029) || (c =? 0x202F) || (c =? 0x205F)
  || (c =? 0x3000).

(** The line boundaries of [str.splitlines], apart from the pair CR LF. *)
Definition is_linebreak (c : N) : bool :=
  ((0x0A <=? c) && (c <=? 0x0D)) || ((0x1C <=? c) && (c <=? 0x1E))
  || (c =? 0x85) || (c =? 0x2028) || (c =? 0x2029).

(** [str.lstrip]/[str.rstrip]/[str.strip], for a predicate on characters. *)
Fixpoint lstrip_by (p : N → bool) (s : str) : str :=
  match s with
  | c :: s' => if p c then lstrip_by p s' else s
  | [] => []
  end.

Definition rstrip_by (p : N → bool) (s : str) : str :=
  rev (lstrip_by p (rev s)).

Definition strip_by (p : N → bool) (s : str) : str :=
  rstrip_by p (lstrip_by p s).

Definition rstrip (s : str) : str := rstrip_by isspace s.
Definition strip (s : str) : str := strip_by isspace s.

(** [s.lstrip(chars)]: the leading characters that occur in [chars] are removed. *)
Definition lstrip_chars (chars : str) (s : str) : str :=
  lstrip_by (λ c, existsb (N.eqb c) chars) s.

(** [s.startswith(prefix)]. *)
Fixpoint startswith (prefix s : str) : bool :=
  match prefix, s with
  | [], _ => true
  | a :: prefix', b :: s' => (a =? b) && startswith prefix' s'
  | _ :: _, [] => false
  end.

(** [s[i:]] for an integer [i]; a negative [i] counts from the end. *)
Definition slice_from (i : Z) (s : str) : str :=
  if (0 <=? i)%Z then drop (Z.to_nat i) s
  else drop (length s - Z.to_nat (- i)) s.

(** [sep.join(parts)]. *)
Fixpoint join (sep : str) (parts : list str) : str :=
  match parts with
  | [] => []
  | [x] => x
  | x :: rest => x ++ sep ++ join sep rest
  end.

(** [str.splitlines()]: [cur] holds the current line, reversed.  A final
    line break adds no empty line, and the empty text has no line. *)
Fixpoint splitlines_from (cur : str) (s : str) : list str :=
  match s with
  | [] => match cur with [] => [] | _ => [rev cur] end
  | c :: s' =>
      if c =? 0x0D then
        match s' with
        | d :: s'' =>
            if d =? 0x0A then rev cur :: splitlines_from [] s''
            else rev cur :: splitlines_from [] s'
        | [] => [rev cur]
        end
      else if is_linebreak c then rev cur :: splitlines_from [] s'
      else splitlines_from (c :: cur) s'
  end.

Definition splitlines (s : str) : list str := splitlines_from [] s.

(** [s.replace(old, new)] for a one-character [old]. *)
Definition replace_char (old : N) (new : str) (s : str) : str :=
  flat_map (λ c, if c =? old then new else [c]) s.

(** [html.escape(s)] with its default [quote=True]: five replacements in
    sequence, the ampersand first. *)
Definition escape (s : str) : str :=
  let s := replace_char 38 (lit "&amp;") s in
  let s := replace_char 60 (lit "&lt;") s in
  let s := replace_char 62 (lit "&gt;") s in
  let s := replace_char dquote (lit "&quot;") s in
  let s := replace_char squote (lit "&#x27;") s in
  s.

(** [str(n)] for an integer, as an f-string field formats it. *)
Definition str_of_int (n : Z) : str := lit (pretty n).

(** ** The renderer *)

(** The inline styles of the three heading levels. *)
Definition HEADING_STYLES : gmap Z str :=
  {[ 1%Z := lit "font-size: 22px; margin-top: 28px; margin-bottom: 12px;";
     2%Z := lit "font-size: 18px; margin-top: 24px; margin-bottom: 10px;";
     3%Z := lit "font-size: 16px; margin-top: 20px; margin-bottom: 8px;" ]}.

(** The lines [html_lines] starts with: the document shell up to [<body>]. *)
Definition shell_head : list str :=
  [ lit "<!DOCTYPE html>";
    lit "<html>";
    lit "<head>";
    lit "<meta charset=" ++ [dquote] ++ lit "utf-8" ++ [dquote] ++ lit ">";
    lit "<style>";
    lit "body { font-family: -apple-system, BlinkMacSystemFont, 'Helvetica Neue', Helvetica, Arial, sans-serif;"
      ++ lit " font-size: 12pt; margin: 48px 60px; line-height: 1.5; color: #131313; }";
    lit "h1, h2, h3 { font-weight: 600; }";
    lit "p { margin: 10px 0; }";
    lit "ul, ol { margin: 8px 0 8px 24px; }";
    lit "li { margin: 4px 0; }";
    lit "strong { font-weight: 600; }";
    lit "</style>";
    lit "</head>";
    lit "<body>" ].

Definition shell_tail : list str := [ lit "</body>"; lit "</html>" ].

(** The local state of [markdown_to_html]: the list being built and the
    two flags that [close_lists] shares with the loop. *)
Record RenderState := mkRenderState {
  html_lines : list str;
  in_ul : bool;
  in_ol : bool
}.

Definition append (x : str) (st : RenderState) : RenderState :=
  mkRenderState (html_lines st ++ [x]) (in_ul st) (in_ol st).

Definition set_in_ul (b : bool) (st : RenderState) : RenderState :=
  mkRenderState (html_lines st) b (in_ol st).

Definition set_in_ol (b : bool) (st : RenderState) : RenderState :=
  mkRenderState (html_lines st) (in_ul st) b.

Definition close_lists (st : RenderState) : RenderState :=
  let st := if in_ul st then set_in_ul false (append (lit "</ul>") st) else st in
  let st := if in_ol st then set_in_ol false (append (lit "</ol>") st) else st in
  st.

(** The fragments the loop appends. *)
Definition blank_fragment : str := lit "<p>&nbsp;</p>".

Definition heading_fragment (level : Z) (style text : str) : str :=
  lit "<h" ++ str_of_int level ++ lit " style=" ++ [dquote] ++ style
    ++ [dquote] ++ lit " >" ++ text ++ lit "</h" ++ str_of_int level ++ lit ">".

Definition li_fragment (text : str) : str := lit "<li>" ++ text ++ lit "</li>".

Definition p_fragment (text : str) : str := lit "<p>" ++ text ++ lit "</p>".

(** The longest prefix of [s] whose characters satisfy [p], and what follows it. *)
Fixpoint span (p : N → bool) (s : str) : str * str :=
  match s with
  | c :: s' => if p c then let '(a, b) := span p s' in (c :: a, b) else ([], s)
  | [] => ([], [])
  end.

(** The two groups of a match of [numbered_pattern]. *)
Record Match := mkMatch { group1 : str; group2 : str }.

Section Renderer.

(** Membership in Unicode category Nd for the code points above ASCII, a
    table of the interpreter's Unicode database. *)
Variable nd_table : N → bool.

(** [\d] in a [str] pattern. *)
Definition isdecimal (c : N) : bool :=
  if c <? 128 then (48 <=? c) && (c <=? 57) else nd_table c.

(** [numbered_pattern.match(s)], anchored at the start of [s].  The
    pattern is: one or more [\d] (group 1), a period, one or more [\s],
    then any run of characters other than the line feed (group 2).  Each
    repetition takes its longest run: a shorter run of digits is followed
    by a digit, which is not the period, and after any run of white space
    the last part matches, so backtracking finds nothing else. *)
Definition numbered_pattern_match (s : str) : option Match :=
  let '(digits, s1) := span isdecimal s in
  match digits, s1 with
  | _ :: _, c :: s2 =>
      if c =? 46 then
        let '(spaces, s3) := span isspace s2 in
        match spaces with
        | _ :: _ => Some (mkMatch digits (fst (span (λ c, negb (c =? 0x0A)) s3)))
        | [] => None
        end
      else None
  | _, _ => None
  end.

(** The body of the loop over the lines; [None] is the [KeyError] of
    [HEADING_STYLES[level]]. *)
Definition render_line (st : RenderState) (raw_line : str) : option RenderState :=
  let line := rstrip raw_line in
  let stripped := strip line in
  match stripped with
  | [] => Some (append blank_fragment (close_lists st))
  | _ :: _ =>
  if startswith (lit "#") stripped then
    let st := close_lists st in
    let level := (Z.of_nat (length stripped)
                  - Z.of_nat (length (lstrip_chars (lit "#") stripped)))%Z in
    let level := Z.max 1 (Z.min level 3) in
    let text := strip (slice_from level stripped) in
    style ← HEADING_STYLES !! level;
    Some (append (heading_fragment level style (escape text)) st)
  else
  match numbered_pattern_match stripped with
  | Some m =>
      let st := if negb (in_ol st)
                then set_in_ol true (append (lit "<ol>") (close_lists st))
                else st in
      Some (append (li_fragment (escape (group2 m))) st)
  | None =>
  if startswith (lit "- ") stripped then
    let st := if negb (in_ul st)
              then set_in_ul true (append (lit "<ul>") (close_lists st))
              else st in
    Some (append (li_fragment (escape (strip (slice_from 2 stripped)))) st)
  else
    Some (append (p_fragment (escape stripped)) (close_lists st))
  end
  end.

Fixpoint render_lines (st : RenderState) (lines : list str) : option RenderState :=
  match lines with
  | [] => Some st
  | raw_line :: lines' => st' ← render_line st raw_line; render_lines st' lines'
  end.

Definition initial_state : RenderState := mkRenderState shell_head false false.

Definition markdown_to_html (markdown : str) : option str :=
  st ← render_lines initial_state (splitlines markdown);
  let st := close_lists st in
  Some (join newline (html_lines st ++ shell_tail)).

End Renderer.

(** ** The orchestrator *)

(** The exceptions that can leave [convert_to_pdf]. *)
Inductive exn :=
  | FileNotFoundError (filename : str)
  | PermissionError (filename : str)
  | OSError (filename : str)
  | UnicodeDecodeError
  | KeyError
  | CalledProcessError (returncode : Z) (cmd : list str).

(** [FileNotFoundError] and [PermissionError] are subclasses of [OSError]. *)
Definition is_OSError (e : exn) : bool :=
  match e with
  | FileNotFoundError _ | PermissionError _ | OSError _ => true
  | _ => false
  end.

Inductive Result (A : Type) :=
  | Returned (a : A)
  | Raised (e : exn).
Arguments Returned {A} a.
Arguments Raised {A} e.

(** How an external process ends: with an exit status, or it could not be
    started (the executable is missing). *)
Inductive ProcOutcome :=
  | Exited (returncode : Z)
  | NotStarted.

(** The world the script runs in: the files (path to bytes), the two
    streams, and the commands handed to [subprocess.run]. *)
Record World := mkWorld {
  files : gmap str (list N);
  stdout : list str;
  stderr : list str;
  spawned : list (list str)
}.

(** What the platform supplies and the repository does not define. *)
Record Platform := mkPlatform {
  (** [str(Path(s))] *)
  path_str : str → str;
  (** the UTF-8 codec; decoding fails on ill-formed bytes *)
  utf8_decode : list N → option str;
  utf8_encode : str → list N;
  (** the name that [NamedTemporaryFile] picks *)
  temp_name : gmap str (list N) → str;
  (** whether the system refuses to create the transient file *)
  temp_create_denied : gmap str (list N) → bool;
  (** when writing the bytes to the file fails (no space left on the
      device), what the file is left holding *)
  temp_write_error : gmap str (list N) → str → list N → option (list N);
  (** whether the operating system refuses to unlink a file *)
  remove_denied : gmap str (list N) → str → bool;
  (** the external tool, run on a command line over the files *)
  run_command : list str → gmap str (list N) → ProcOutcome * gmap str (list N)
}.

Definition IO (A : Type) : Type := World → Result A * World.

Definition io_ret {A} (a : A) : IO A := λ w, (Returned a, w).

Definition io_bind {A B} (m : IO A) (k : A → IO B) : IO B := λ w,
  match m w with
  | (Returned a, w') => k a w'
  | (Raised e, w') => (Raised e, w')
  end.

Definition io_raise {A} (e : exn) : IO A := λ w, (Raised e, w).

Notation "x <- m ;; k" := (io_bind m (λ x, k))
  (at level 100, m at next level, right associativity).
Notation "m ;; k" := (io_bind m (λ _, k))
  (at level 100, right associativity).

(** [try: body finally: handler]: the handler always runs; an exception of
    the handler replaces the outcome of the body. *)
Definition try_finally {A} (body : IO A) (handler : IO unit) : IO A := λ w,
  let '(r, w1) := body w in
  match handler w1 with
  | (Returned _, w2) => (r, w2)
  | (Raised e, w2) => (Raised e, w2)
  end.

(** [try: body except OSError: pass]. *)
Definition except_OSError_pass (body : IO unit) : IO unit := λ w,
  match body w with
  | (Raised e, w') => if is_OSError e then (Returned (), w') else (Raised e, w')
  | r => r
  end.

Definition print_stdout (s : str) : IO unit := λ w,
  (Returned (), mkWorld (files w) (stdout w ++ [s]) (stderr w) (spawned w)).

Definition print_stderr (s : str) : IO unit := λ w,
  (Returned (), mkWorld (files w) (stdout w) (stderr w ++ [s]) (spawned w)).

Definition set_files (fs : gmap str (list N)) (w : World) : World :=
  mkWorld fs (stdout w) (stderr w) (spawned w).

Section Orchestrator.

Variable nd_table : N → bool.
Variable os : Platform.

(** [path.exists()]. *)
Definition path_exists (path : str) : IO bool := λ w,
  (Returned (bool_decide (is_Some (files w !! path))), w).

(** [path.read_text(encoding="utf-8")]. *)
Definition read_text (path : str) : IO str := λ w,
  match files w !! path with
  | None => (Raised (FileNotFoundError path), w)
  | Some bytes =>
      match utf8_decode os bytes with
      | Some text => (Returned text, w)
      | None => (Raised UnicodeDecodeError, w)
      end
  end.

(** The [with tempfile.NamedTemporaryFile("w", suffix=".html",
    delete=False, encoding="utf-8")] block: the file is created, the text
    written, and the file is kept when the block is left.  When the file
    cannot be created nothing is left; when the write fails the exception
    leaves the block and the file, created with [delete=False], stays. *)
Definition write_temporary (text : str) : IO str := λ w,
  let tmp_path := path_str os (temp_name os (files w)) in
  if temp_create_denied os (files w) then (Raised (PermissionError tmp_path), w)
  else
    match temp_write_error os (files w) tmp_path (utf8_encode os text) with
    | Some remains =>
        (Raised (OSError tmp_path), set_files (<[tmp_path := remains]> (files w)) w)
    | None =>
        (Returned tmp_path,
         set_files (<[tmp_path := utf8_encode os text]> (files w)) w)
    end.

(** [subprocess.run(cmd, check=True)]. *)
Definition subprocess_run_check (cmd : list str) : IO unit := λ w,
  let '(outcome, fs) := run_command os cmd (files w) in
  let w' := mkWorld fs (stdout w) (stderr w) (spawned w ++ [cmd]) in
  match outcome with
  | Exited 0 => (Returned (), w')
  | Exited returncode => (Raised (CalledProcessError returncode cmd), w')
  | NotStarted => (Raised (FileNotFoundError (hd [] cmd)), w')
  end.

(** [os.remove(path)]. *)
Definition os_remove (path : str) : IO unit := λ w,
  match files w !! path with
  | None => (Raised (FileNotFoundError path), w)
  | Some _ =>
      if remove_denied os (files w) path then (Raised (PermissionError path), w)
      else (Returned (), set_files (delete path (files w)) w)
  end.

Definition textutil_command (tmp_path output_path : str) : list str :=
  [ lit "textutil"; lit "-convert"; lit "pdf"; tmp_path; lit "-output"; output_path ].

Definition convert_to_pdf (markdown_path output_path : str) : IO unit :=
  text <- read_text markdown_path ;;
  html_content <- (match markdown_to_html nd_table text with
                   | Some h => io_ret h
                   | None => io_raise KeyError
                   end) ;;
  tmp_path <- write_temporary html_content ;;
  try_finally
    (subprocess_run_check (textutil_command tmp_path output_path))
    (except_OSError_pass (os_remove tmp_path)).

Definition main (argv : list str) : IO Z :=
  match argv with
  | [_; arg1; arg2] =>
      let src := path_str os arg1 in
      let dst := path_str os arg2 in
      found <- path_exists src ;;
      if negb found then
        print_stderr (lit "Input file not found: " ++ src) ;;
        io_ret 1%Z
      else
        convert_to_pdf src dst ;;
        print_stdout (lit "Wrote " ++ dst) ;;
        io_ret 0%Z
  | _ =>
      print_stderr (lit "Usage: make_pdf.py <input.md> <output.pdf>") ;;
      io_ret 1%Z
  end.

(** [sys.exit(main())]: the exit status is what [main] returns; an
    exception that nobody catches is reported on the error stream and the
    status is 1. *)
Definition run_script (argv : list str) (w : World) : Z * World :=
  match main argv w with
  | (Returned status, w') => (status, w')
  | (Raised _, w') =>
      (1%Z, mkWorld (files w') (stdout w')
                    (stderr w' ++ [lit "Traceback (most recent call last):"])
                    (spawned w'))
  end.

End Orchestrator.

(** ** Notions used by the statements *)

(** The number of leading occurrences of [c] in [s]. *)
Definition count_leading (c : N) (s : str) : nat :=
  length (fst (span (N.eqb c) s)).

(** Which list is open at a point of the output. *)
Inductive ListCtx := NoList | InUl | InOl.

(** One pass over the output text, following the list tags: an opening
    tag is accepted only while no list is open, a closing tag only while
    the list of its kind is open.  [None] reports a tag out of place. *)
Fixpoint scan_lists (ctx : ListCtx) (s : str) : option ListCtx :=
  match s with
  | [] => Some ctx
  | _ :: s' =>
      if startswith (lit "<ul>") s then
        match ctx with NoList => scan_lists InUl s' | _ => None end
      else if startswith (lit "</ul>") s then
        match ctx with InUl => scan_lists NoList s' | _ => None end
      else if startswith (lit "<ol>") s then
        match ctx with NoList => scan_lists InOl s' | _ => None end
      else if startswith (lit "</ol>") s then
        match ctx with InOl => scan_lists NoList s' | _ => None end
      else scan_lists ctx s'
  end.

(** The lines of the output so far, each with its line feed. *)
Definition unlines (lines : list str) : str :=
  flat_map (λ l, l ++ newline) lines.

(** A piece of output that [scan_lists] passes over, whatever follows it. *)
Definition neutral (a : str) : Prop :=
  ∀ (ctx : ListCtx) (s : str), scan_lists ctx (a ++ s) = scan_lists ctx s.

(** A check that no list tag starts in [a]: after each [<], and after
    each [</], comes a character that is neither [u] nor [o]. *)
Fixpoint tag_free (a : str) : bool :=
  match a with
  | [] => true
  | c :: a' =>
      (if c =? 60 then
         match a' with
         | d :: a'' =>
             if d =? 47 then
               match a'' with
               | e :: _ => negb (e =? 117) && negb (e =? 111)
               | [] => false
               end
             else negb (d =? 117) && negb (d =? 111)
         | [] => false
         end
       else true) && tag_free a'
  end.

(** [a] is empty or ends with a line feed: no tag can straddle its end. *)
Fixpoint ends_nl (a : str) : bool :=
  match a with
  | [] => true
  | [c] => c =? 0x0A
  | _ :: a' => ends_nl a'
  end.

(** Balanced list tags, never two lists open at once, none left open. *)
Definition lists_balanced (html : str) : Prop :=
  scan_lists NoList html = Some NoList.

(** The list that the flags of a state describe. *)
Definition ctx_of (st : RenderState) : ListCtx :=
  if in_ul st then InUl else if in_ol st then InOl else NoList.

(** The character references that [escape] produces. *)
Definition entities : list str :=
  [ lit "&amp;"; lit "&lt;"; lit "&gt;"; lit "&quot;"; lit "&#x27;" ].

(** No angle bracket and no quote occurs in [s], and every ampersand of
    [s] starts a character reference. *)
Fixpoint no_raw_special (s : str) : bool :=
  match s with
  | [] => true
  | c :: s' =>
      if (c =? 60) || (c =? 62) || (c =? dquote) || (c =? squote) then false
      else if c =? 38 then existsb (λ e, startswith e s) entities && no_raw_special s'
      else no_raw_special s'
  end.

(** The fragments of the body that carry no text of the input. *)
Definition fixed_fragments : list str :=
  [ lit "<ul>"; lit "</ul>"; lit "<ol>"; lit "</ol>"; blank_fragment ].

(** A fragment of the body: a fixed one, or an element around escaped text. *)
Definition body_fragment (f : str) : Prop :=
  f ∈ fixed_fragments
  ∨ ∃ text : str,
      f = li_fragment (escape text) ∨ f = p_fragment (escape text)
      ∨ ∃ level style, HEADING_STYLES !! level = Some style
                       ∧ f = heading_fragment level style (escape text).

(** The invariant of the loop: at most one flag is set, the output so far
    scans to the list the flags describe, and it is the shell head followed
    by body fragments. *)
Definition well_formed (st : RenderState) : Prop :=
  in_ul st && in_ol st = false
  ∧ scan_lists NoList (unlines (html_lines st)) = Some (ctx_of st)
  ∧ ∃ body, html_lines st = shell_head ++ body ∧ Forall body_fragment body.

(** A table with no decimal digit above ASCII, for the examples. *)
Definition ascii_digits_only : N → bool := λ _, false.

(** The shape of an ordered item: digits, a period, white space, content. *)
Definition numbered_shape (isdigit : N → bool) (s : str) : Prop :=
  ∃ ds ws rest : str,
    s = ds ++ [46] ++ ws ++ rest
    ∧ ds ≠ [] ∧ forallb isdigit ds = true
    ∧ ws ≠ [] ∧ forallb isspace ws = true
    ∧ rest ≠ [].

(** What [convert_to_pdf] returns or raises, given how the tool ended. *)
Definition primary_result (outcome : ProcOutcome) (cmd : list str) : Result unit :=
  match outcome with
  | Exited 0 => Returned ()
  | Exited returncode => Raised (CalledProcessError returncode cmd)
  | NotStarted => Raised (FileNotFoundError (hd [] cmd))
  end.

(** The closing tags that [close_lists] appends in a state. *)
Definition closing_tags (st : RenderState) : list str :=
  (if in_ul st then [lit "</ul>"] else []) ++ (if in_ol st then [lit "</ol>"] else []).

(** The state in which an ordered (unordered) item is appended. *)
Definition enter_ol (st : RenderState) : RenderState :=
  if in_ol st then st else set_in_ol true (append (lit "<ol>") (close_lists st)).

Definition enter_ul (st : RenderState) : RenderState :=
  if in_ul st then st else set_in_ul true (append (lit "<ul>") (close_lists st)).

(** The heading text as the specification words it: everything after the
    whole run of leading [#], trimmed. *)
Definition heading_text_after_run (stripped : str) : str :=
  strip (lstrip_chars (lit "#") stripped).

(** What [escape] does to one character. *)
Definition escape_char (c : N) : str :=
  if c =? 38 then lit "&amp;"
  else if c =? 60 then lit "&lt;"
  else if c =? 62 then lit "&gt;"
  else if c =? dquote then lit "&quot;"
  else if c =? squote then lit "&#x27;"
  else [c].

(** The files after the clean-up of [convert_to_pdf], given the files [fs]
    the tool left: the transient file is gone, unless it is there and the
    system refuses to unlink it. *)
Definition after_cleanup (os : Platform) (fs : gmap str (list N)) (tmp_path : str)
  : gmap str (list N) :=
  if bool_decide (is_Some (fs !! tmp_path)) && remove_denied os fs tmp_path
  then fs else delete tmp_path fs.

(** A platform and a world for the examples: paths are kept as they are,
    bytes are code points, the transient file can be written, the tool
    fails with status 1 and touches no file. *)
Definition sample_platform : Platform :=
  mkPlatform (λ s, s) (λ b, Some b) (λ s, s) (λ _, lit "/tmp/tmpa1b2c3.html")
             (λ _, false) (λ _ _ _, None)
             (λ _ _, false) (λ _ fs, (Exited 1, fs)).

Definition sample_world : World :=
  mkWorld {[ lit "notes.md" := lit "# Title" ]} [] [] [].

(** No character of [s] is a line boundary of [splitlines]. *)
Definition no_break (s : str) : bool :=
  forallb (λ c, negb (is_linebreak c)) s.


(** A platform where the device is full: the transient file is created
    and the write fails, leaving it empty. *)
Definition full_disk_platform : Platform :=
  mkPlatform (λ s, s) (λ b, Some b) (λ s, s) (λ _, lit "/tmp/tmpa1b2c3.html")
             (λ _, false) (λ _ _ _, Some [])
             (λ _ _, false) (λ _ fs, (Exited 0, fs)).

(** A platform whose codec rejects every file. *)
Definition undecodable_platform : Platform :=
  mkPlatform (λ s, s) (λ _, None) (λ s, s) (λ _, lit "/tmp/tmpa1b2c3.html")
             (λ _, false) (λ _ _ _, None)
             (λ _ _, false) (λ _ fs, (Exited 0, fs)).

(** The pair CR LF, as a separator of lines. *)
Definition crlf : str := [0x0D; 0x0A].

(** ** Text lemmas *)

Lemma span_app (p : N → bool) (s : str) : fst (span p s) ++ snd (span p s) = s.
Proof.
  induction s as [|c s IH]; simpl; [done|].
  destruct (p c); [|done].
  destruct (span p s) as [a b]; simpl in *. by rewrite IH.
Qed.

Lemma span_fst_all (p : N → bool) (s : str) : forallb p (fst (span p s)) = true.
Proof.
  induction s as [|c s IH]; simpl; [done|].
  destruct (p c) eqn:E; [|done].
  destruct (span p s) as [a b]; simpl in *. by rewrite E.
Qed.

Lemma span_snd_head (p : N → bool) (s : str) c r :
  snd (span p s) = c :: r → p c = false.
Proof.
  induction s as [|d s IH]; simpl; [done|].
  destruct (p d) eqn:E.
  - destruct (span p s) as [a b]; simpl in *. exact IH.
  - simpl. intros [= -> _]. exact E.
Qed.

(** [span] on a run followed by a text that does not continue it. *)
Lemma span_run (p : N → bool) (a b : str) :
  forallb p a = true →
  span p (a ++ b) = (a ++ fst (span p b), snd (span p b)).
Proof.
  induction a as [|c a IH]; simpl.
  - intros _. by destruct (span p b).
  - intros [Hc Ha]%andb_prop. rewrite Hc, (IH Ha). done.
Qed.

Lemma span_stop (p : N → bool) (c : N) (r : str) :
  p c = false → span p (c :: r) = ([], c :: r).
Proof. intros H. simpl. by rewrite H. Qed.

Lemma lstrip_by_span (p : N → bool) (s : str) : lstrip_by p s = snd (span p s).
Proof.
  induction s as [|c s IH]; simpl; [done|].
  destruct (p c); [|done]. rewrite IH. by destruct (span p s).
Qed.

Lemma lstrip_by_head (p : N → bool) (s : str) c r :
  lstrip_by p s = c :: r → p c = false.
Proof. rewrite lstrip_by_span. apply span_snd_head. Qed.

Lemma rstrip_by_last (p : N → bool) (s a : str) c :
  rstrip_by p s = a ++ [c] → p c = false.
Proof.
  unfold rstrip_by. intros H.
  apply (f_equal (@rev N)) in H. rewrite rev_involutive, rev_app_distr in H.
  simpl in H. by apply lstrip_by_head in H.
Qed.

Lemma strip_last (s a : str) c : strip s = a ++ [c] → isspace c = false.
Proof. apply rstrip_by_last. Qed.

Lemma lstrip_by_ext (p q : N → bool) (s : str) :
  (∀ x, p x = q x) → lstrip_by p s = lstrip_by q s.
Proof.
  intros H. induction s as [|x s IH]; simpl; [done|]. by rewrite H, IH.
Qed.

Lemma count_leading_lstrip (c : N) (s : str) :
  (Z.of_nat (length s) - Z.of_nat (length (lstrip_chars [c] s)))%Z
  = Z.of_nat (count_leading c s).
Proof.
  unfold lstrip_chars, count_leading.
  assert (E : lstrip_by (λ x, existsb (N.eqb x) [c]) s = snd (span (N.eqb c) s)).
  { rewrite <- lstrip_by_span. apply lstrip_by_ext.
    intros x. simpl. by rewrite orb_false_r, N.eqb_sym. }
  rewrite E. rewrite <- (span_app (N.eqb c) s) at 1.
  rewrite length_app. lia.
Qed.

Lemma count_leading_drop (c : N) (s : str) :
  drop (count_leading c s) s = snd (span (N.eqb c) s).
Proof.
  unfold count_leading. rewrite <- (span_app (N.eqb c) s) at 2.
  by rewrite drop_app_length.
Qed.

Lemma elem_of_rev (x : N) (l : str) : x ∈ rev l ↔ x ∈ l.
Proof. by rewrite !list_elem_of_In, <- in_rev. Qed.

(** The lines of [splitlines] hold no line feed. *)
Lemma splitlines_from_no_lf (n : nat) : ∀ (s cur : str),
  (length s ≤ n)%nat → 0x0A ∉ cur →
  Forall (λ l : str, 0x0A ∉ l) (splitlines_from cur s).
Proof.
  induction n as [|n IH]; intros s cur Hn Hcur.
  - destruct s; [|simpl in Hn; lia]. simpl.
    destruct cur; [constructor|]. repeat constructor.
    by rewrite elem_of_rev.
  - assert (Hrev : 0x0A ∉ rev cur) by (by rewrite elem_of_rev).
    assert (Hnil : (0x0A : N) ∉ ([] : str)) by apply not_elem_of_nil.
    destruct s as [|c s]; cbn [splitlines_from].
    { destruct cur; [constructor|]. by repeat constructor. }
    cbn [length] in Hn.
    destruct (c =? 13) eqn:Ecr.
    + destruct s as [|d s]; [by repeat constructor|].
      cbn [length] in Hn.
      destruct (d =? 10); constructor; try done; apply IH; simpl; try done; lia.
    + destruct (is_linebreak c) eqn:Elb.
      * constructor; [done|]. apply IH; [lia|done].
      * apply IH; [lia|].
        intros [<-|H]%elem_of_cons; [by vm_compute in Elb|done].
Qed.

Lemma splitlines_no_lf (markdown line : str) :
  line ∈ splitlines markdown → 0x0A ∉ line.
Proof.
  intros H.
  pose proof (splitlines_from_no_lf (length markdown) markdown [] (le_n _)
                (not_elem_of_nil _)) as HF.
  rewrite Forall_forall in HF. by apply HF.
Qed.

(** Stripping keeps a text free of line feeds. *)
Lemma lstrip_by_sublist (p : N → bool) (s : str) c :
  c ∈ lstrip_by p s → c ∈ s.
Proof.
  induction s as [|x s IH]; simpl; [done|].
  destruct (p x); [|done]. intros H. right. by apply IH.
Qed.

Lemma rstrip_by_sublist (p : N → bool) (s : str) c :
  c ∈ rstrip_by p s → c ∈ s.
Proof.
  unfold rstrip_by. rewrite elem_of_rev.
  intros H%lstrip_by_sublist. by rewrite elem_of_rev in H.
Qed.

Lemma stripped_sublist (raw : str) c : c ∈ strip (rstrip raw) → c ∈ raw.
Proof.
  unfold strip, strip_by, rstrip.
  by intros H%rstrip_by_sublist%lstrip_by_sublist%rstrip_by_sublist.
Qed.

(** The last part of the pattern takes a whole text that has no line feed. *)
Lemma span_no_lf (s : str) :
  0x0A ∉ s → fst (span (λ c, negb (c =? 0x0A)) s) = s.
Proof.
  induction s as [|c s IH]; simpl; [done|].
  intros H. rewrite not_elem_of_cons in H. destruct H as [Hc Hs].
  destruct (c =? 10) eqn:E; [apply N.eqb_eq in E; congruence|].
  simpl. specialize (IH Hs). destruct (span _ s); simpl in *. by rewrite IH.
Qed.

(** *** Escaping *)

Lemma replace_char_app (old : N) (new a b : str) :
  replace_char old new (a ++ b) = replace_char old new a ++ replace_char old new b.
Proof. apply flat_map_app. Qed.

Lemma replace_char_flat_map (old : N) (new : str) (f : N → str) (s : str) :
  replace_char old new (flat_map f s) = flat_map (λ c, replace_char old new (f c)) s.
Proof.
  induction s as [|c s IH]; simpl; [done|].
  by rewrite replace_char_app, IH.
Qed.

(** The five replacements in sequence act on each character on its own:
    no replacement text holds a character that a later one replaces. *)
Lemma escape_flat_map (s : str) : escape s = flat_map escape_char s.
Proof.
  unfold escape. unfold replace_char at 5.
  rewrite !replace_char_flat_map.
  apply flat_map_ext. intros c. unfold escape_char.
  destruct (c =? 38) eqn:E1; [reflexivity|].
  cbn [replace_char flat_map]. rewrite !app_nil_r.
  destruct (c =? 60) eqn:E2; [reflexivity|].
  cbn [replace_char flat_map]. rewrite !app_nil_r.
  destruct (c =? 62) eqn:E3; [reflexivity|].
  cbn [replace_char flat_map]. rewrite !app_nil_r.
  destruct (c =? dquote) eqn:E4; [reflexivity|].
  cbn [replace_char flat_map]. rewrite !app_nil_r.
  destruct (c =? squote) eqn:E5; reflexivity.
Qed.

Lemma escape_nil : escape [] = [].
Proof. reflexivity. Qed.

Lemma no_raw_special_escape (s : str) : no_raw_special (escape s) = true.
Proof.
  rewrite escape_flat_map.
  induction s as [|c s IH]; [done|].
  cbn [flat_map]. unfold escape_char.
  destruct (c =? 38) eqn:E1; [exact IH|].
  destruct (c =? 60) eqn:E2; [exact IH|].
  destruct (c =? 62) eqn:E3; [exact IH|].
  destruct (c =? dquote) eqn:E4; [exact IH|].
  destruct (c =? squote) eqn:E5; [exact IH|].
  cbn [app no_raw_special]. by rewrite E1, E2, E3, E4, E5.
Qed.

(** An escaped text holds no [<]. *)
Lemma escape_no_lt (s : str) : 60 ∉ escape s.
Proof.
  rewrite escape_flat_map.
  induction s as [|c s IH]; [apply not_elem_of_nil|].
  cbn [flat_map]. rewrite elem_of_app. intros [H|H]; [|done].
  unfold escape_char in H.
  repeat (match type of H with
          | context [if ?b then _ else _] => destruct b eqn:?
          end);
    try (vm_compute in H; repeat (apply elem_of_cons in H as [H|H]; [done|]);
         by apply elem_of_nil in H).
  apply list_elem_of_singleton in H. subst c. done.
Qed.

(** ** The renderer, line by line *)

Lemma close_lists_eq (st : RenderState) :
  close_lists st = mkRenderState (html_lines st ++ closing_tags st) false false.
Proof.
  destruct st as [ls [] []];
    unfold close_lists, closing_tags, append, set_in_ul, set_in_ol;
    cbn [html_lines in_ul in_ol app];
    by rewrite <- ?app_assoc, ?app_nil_r.
Qed.

(** The clamped level always has a style: the lookup cannot fail. *)
Lemma heading_style_defined (n : Z) :
  ∃ style, HEADING_STYLES !! Z.max 1 (Z.min n 3) = Some style.
Proof.
  assert (H : (Z.max 1 (Z.min n 3) = 1 ∨ Z.max 1 (Z.min n 3) = 2
               ∨ Z.max 1 (Z.min n 3) = 3)%Z) by lia.
  destruct H as [-> | [-> | ->]]; eexists; vm_compute; reflexivity.
Qed.

Lemma startswith_cons_inv (c : N) (s : str) :
  startswith [c] s = true → ∃ t, s = c :: t.
Proof.
  destruct s as [|x t]; simpl; [done|].
  rewrite andb_true_r. intros ->%N.eqb_eq. by exists t.
Qed.

Lemma count_leading_pos (c : N) (s : str) :
  startswith [c] s = true → (1 ≤ Z.of_nat (count_leading c s))%Z.
Proof.
  intros [t ->]%startswith_cons_inv. unfold count_leading. simpl.
  rewrite N.eqb_refl. destruct (span (N.eqb c) t). simpl. lia.
Qed.

(** *** The states the rules produce, written out *)

Lemma append_close_lists (x : str) (st : RenderState) :
  append x (close_lists st)
  = mkRenderState (html_lines st ++ closing_tags st ++ [x]) false false.
Proof.
  rewrite close_lists_eq. unfold append. cbn [html_lines in_ul in_ol].
  by rewrite <- app_assoc.
Qed.

Lemma append_enter_ol (x : str) (st : RenderState) :
  append x (enter_ol st)
  = if in_ol st
    then mkRenderState (html_lines st ++ [x]) (in_ul st) true
    else mkRenderState (html_lines st ++ closing_tags st ++ [lit "<ol>"; x]) false true.
Proof.
  unfold enter_ol. destruct (in_ol st) eqn:E.
  - unfold append. by rewrite E.
  - rewrite close_lists_eq. unfold append, set_in_ol. cbn [html_lines in_ul in_ol].
    by rewrite <- !app_assoc.
Qed.

Lemma append_enter_ul (x : str) (st : RenderState) :
  append x (enter_ul st)
  = if in_ul st
    then mkRenderState (html_lines st ++ [x]) true (in_ol st)
    else mkRenderState (html_lines st ++ closing_tags st ++ [lit "<ul>"; x]) true false.
Proof.
  unfold enter_ul. destruct (in_ul st) eqn:E.
  - unfold append. by rewrite E.
  - rewrite close_lists_eq. unfold append, set_in_ul. cbn [html_lines in_ul in_ol].
    by rewrite <- !app_assoc.
Qed.

(** The text of a heading element of level 1, 2 or 3. *)
Lemma heading_fragment_text (level : Z) (style text : str) :
  (1 ≤ level ≤ 3)%Z →
  heading_fragment level style text
  = lit "<h" ++ [48 + Z.to_N level] ++ lit " style=" ++ [dquote] ++ style ++ [dquote]
    ++ lit " >" ++ text ++ lit "</h" ++ [48 + Z.to_N level] ++ lit ">".
Proof.
  intros H. unfold heading_fragment.
  assert (E1 : str_of_int 1 = [49]) by (vm_compute; reflexivity).
  assert (E2 : str_of_int 2 = [50]) by (vm_compute; reflexivity).
  assert (E3 : str_of_int 3 = [51]) by (vm_compute; reflexivity).
  assert (Hl : (level = 1 ∨ level = 2 ∨ level = 3)%Z) by lia.
  destruct Hl as [-> | [-> | ->]]; by rewrite ?E1, ?E2, ?E3.
Qed.

(** The three entries of the table of styles. *)
Lemma heading_style_cases (level : Z) (style : str) :
  HEADING_STYLES !! level = Some style →
  (level = 1%Z
   ∧ style = lit "font-size: 22px; margin-top: 28px; margin-bottom: 12px;")
  ∨ (level = 2%Z
     ∧ style = lit "font-size: 18px; margin-top: 24px; margin-bottom: 10px;")
  ∨ (level = 3%Z
     ∧ style = lit "font-size: 16px; margin-top: 20px; margin-bottom: 8px;").
Proof.
  intros H. unfold HEADING_STYLES in H.
  destruct (decide (level = 1%Z)) as [->|?].
  { left. split; [done|]. rewrite lookup_insert_eq in H. congruence. }
  rewrite lookup_insert_ne in H by done.
  destruct (decide (level = 2%Z)) as [->|?].
  { right; left. split; [done|]. rewrite lookup_insert_eq in H. congruence. }
  rewrite lookup_insert_ne in H by done.
  destruct (decide (level = 3%Z)) as [->|?].
  { right; right. split; [done|]. rewrite lookup_singleton_eq in H. congruence. }
  by rewrite lookup_singleton_ne in H.
Qed.

Section RenderLine.

Variable nd_table : N → bool.

Lemma isdecimal_ascii (c : N) :
  c < 128 → (isdecimal nd_table) c = (48 <=? c) && (c <=? 57).
Proof. intros H. unfold isdecimal. by rewrite (proj2 (N.ltb_lt _ _) H). Qed.

Lemma render_line_blank (st : RenderState) (raw : str) :
  strip (rstrip raw) = [] →
  render_line nd_table st raw = Some (append blank_fragment (close_lists st)).
Proof. intros H. unfold render_line. by rewrite H. Qed.

Lemma render_line_heading (st : RenderState) (raw : str) :
  startswith (lit "#") (strip (rstrip raw)) = true →
  ∃ style,
    HEADING_STYLES !! Z.max 1 (Z.min (Z.of_nat (count_leading 35 (strip (rstrip raw)))) 3)
      = Some style
    ∧ render_line nd_table st raw
      = Some (append
                (heading_fragment
                   (Z.max 1 (Z.min (Z.of_nat (count_leading 35 (strip (rstrip raw)))) 3))
                   style
                   (escape (strip (slice_from
                      (Z.max 1 (Z.min (Z.of_nat (count_leading 35 (strip (rstrip raw)))) 3))
                      (strip (rstrip raw))))))
                (close_lists st)).
Proof.
  intros H. unfold render_line.
  destruct (strip (rstrip raw)) as [|h t] eqn:Hs; [done|].
  rewrite H. change (lit "#") with [35].
  rewrite count_leading_lstrip.
  destruct (heading_style_defined (Z.of_nat (count_leading 35 (h :: t)))) as [style Hst].
  exists style. split; [exact Hst|]. by rewrite Hst.
Qed.

(** The match of the pattern on digits, a period and whatever follows. *)
Lemma numbered_match_digits (ds rest : str) :
  ds ≠ [] → forallb (isdecimal nd_table) ds = true →
  numbered_pattern_match nd_table (ds ++ 46 :: rest)
  = match fst (span isspace rest) with
    | [] => None
    | _ :: _ =>
        Some (mkMatch ds (fst (span (λ c, negb (c =? 0x0A)) (snd (span isspace rest)))))
    end.
Proof.
  intros Hne Hds. unfold numbered_pattern_match.
  rewrite (span_run _ ds (46 :: rest) Hds).
  rewrite (span_stop (isdecimal nd_table) 46 rest) by reflexivity.
  cbn [fst snd]. rewrite app_nil_r.
  destruct ds as [|d ds]; [done|].
  rewrite N.eqb_refl.
  destruct (span isspace rest) as [ws tail]. cbn [fst snd]. by destruct ws.
Qed.

(** A match exposes the shape of the text it was found in. *)
Lemma numbered_match_inv (s : str) (m : Match) :
  numbered_pattern_match nd_table s = Some m →
  ∃ ws tail : str,
    s = group1 m ++ [46] ++ ws ++ tail
    ∧ group1 m ≠ [] ∧ forallb (isdecimal nd_table) (group1 m) = true
    ∧ ws ≠ [] ∧ forallb isspace ws = true
    ∧ group2 m = fst (span (λ c, negb (c =? 0x0A)) tail).
Proof.
  unfold numbered_pattern_match.
  pose proof (span_app (isdecimal nd_table) s) as Happ.
  pose proof (span_fst_all (isdecimal nd_table) s) as Hall.
  destruct (span (isdecimal nd_table) s) as [ds s1]. cbn [fst snd] in *.
  destruct ds as [|d ds]; [done|].
  destruct s1 as [|c s2]; [done|].
  destruct (c =? 46) eqn:Ec; [|done]. apply N.eqb_eq in Ec. subst c.
  pose proof (span_app isspace s2) as Happ2.
  pose proof (span_fst_all isspace s2) as Hall2.
  destruct (span isspace s2) as [ws tail]. cbn [fst snd] in *.
  destruct ws as [|w ws]; [done|].
  intros [= <-]. exists (w :: ws), tail. cbn [group1 group2].
  repeat split; try done.
  by rewrite <- Happ, <- Happ2.
Qed.

Lemma render_line_ordered (st : RenderState) (raw : str) (m : Match) :
  startswith (lit "#") (strip (rstrip raw)) = false →
  numbered_pattern_match nd_table (strip (rstrip raw)) = Some m →
  render_line nd_table st raw
  = Some (append (li_fragment (escape (group2 m))) (enter_ol st)).
Proof.
  intros Hh Hm. unfold render_line, enter_ol.
  destruct (strip (rstrip raw)) as [|h t] eqn:Hs; [done|].
  rewrite Hh, Hm. by destruct (in_ol st).
Qed.

Lemma render_line_unordered (st : RenderState) (raw : str) :
  startswith (lit "#") (strip (rstrip raw)) = false →
  numbered_pattern_match nd_table (strip (rstrip raw)) = None →
  startswith (lit "- ") (strip (rstrip raw)) = true →
  render_line nd_table st raw
  = Some (append (li_fragment (escape (strip (slice_from 2 (strip (rstrip raw))))))
                 (enter_ul st)).
Proof.
  intros Hh Hm Hu. unfold render_line, enter_ul.
  destruct (strip (rstrip raw)) as [|h t] eqn:Hs; [done|].
  rewrite Hh, Hm, Hu. by destruct (in_ul st).
Qed.

Lemma render_line_paragraph (st : RenderState) (raw : str) :
  strip (rstrip raw) ≠ [] →
  startswith (lit "#") (strip (rstrip raw)) = false →
  numbered_pattern_match nd_table (strip (rstrip raw)) = None →
  startswith (lit "- ") (strip (rstrip raw)) = false →
  render_line nd_table st raw
  = Some (append (p_fragment (escape (strip (rstrip raw)))) (close_lists st)).
Proof.
  intros Hne Hh Hm Hu. unfold render_line.
  destruct (strip (rstrip raw)) as [|h t] eqn:Hs; [done|].
  by rewrite Hh, Hm, Hu.
Qed.

(** The loop body never raises. *)
Lemma render_line_total (st : RenderState) (raw : str) :
  ∃ st', render_line nd_table st raw = Some st'.
Proof.
  destruct (strip (rstrip raw)) as [|h t] eqn:Hs.
  { eexists. by apply render_line_blank. }
  destruct (startswith (lit "#") (strip (rstrip raw))) eqn:Hh.
  { destruct (render_line_heading st raw Hh) as (style & _ & ->). by eexists. }
  destruct (numbered_pattern_match nd_table (strip (rstrip raw))) as [m|] eqn:Hm.
  { eexists. by apply render_line_ordered. }
  destruct (startswith (lit "- ") (strip (rstrip raw))) eqn:Hu.
  { eexists. by apply render_line_unordered. }
  eexists. apply render_line_paragraph; try done. by rewrite Hs.
Qed.

(** A text that starts with a digit is no heading and has no dash in front. *)
Lemma digit_first_not_marker (d : N) (t : str) :
  isdecimal nd_table d = true →
  startswith (lit "#") (d :: t) = false ∧ startswith (lit "- ") (d :: t) = false.
Proof.
  intros Hd.
  change (lit "#") with [35]. change (lit "- ") with [45; 32].
  cbn [startswith].
  destruct (35 =? d) eqn:E1.
  { apply N.eqb_eq in E1. subst d. by vm_compute in Hd. }
  destruct (45 =? d) eqn:E2.
  { apply N.eqb_eq in E2. subst d. by vm_compute in Hd. }
  done.
Qed.


(** The heading rule, in terms of the fragment and of [close_lists]. *)
Lemma heading_level_state :
  (∀ (st : RenderState) (raw : str),
     startswith (lit "#") (strip (rstrip raw)) = true →
     ∃ (level : Z) (style : str),
       level = Z.max 1 (Z.min (Z.of_nat (count_leading 35 (strip (rstrip raw)))) 3)
       ∧ (1 ≤ Z.of_nat (count_leading 35 (strip (rstrip raw))))%Z
       ∧ (1 ≤ level ≤ 3)%Z
       ∧ ((4 ≤ count_leading 35 (strip (rstrip raw)))%nat → level = 3%Z)
       ∧ HEADING_STYLES !! level = Some style
       ∧ render_line nd_table st raw
         = Some (append
                   (heading_fragment level style
                      (escape (strip (slice_from level (strip (rstrip raw))))))
                   (close_lists st)))
  ∧ (∀ st : RenderState,
       render_line nd_table st (lit "#")
       = Some (append
                 (heading_fragment 1
                    (lit "font-size: 22px; margin-top: 28px; margin-bottom: 12px;") [])
                 (close_lists st))).
Proof.
  split.
  - intros st raw H.
    destruct (render_line_heading st raw H) as (style & Hst & Hr).
    eexists _, style. split; [reflexivity|].
    split; [by apply (count_leading_pos 35)|].
    split; [lia|]. split; [lia|]. by split.
  - intros st.
    assert (H : startswith (lit "#") (strip (rstrip (lit "#"))) = true) by by vm_compute.
    destruct (render_line_heading st (lit "#") H) as (style & Hst & Hr).
    rewrite Hr. vm_compute in Hst. injection Hst as <-.
    do 2 f_equal.
Qed.

(** C3: on a line whose stripped form starts with [#], the loop closes
    the open list and appends the element [<hN style="..." >text</hN>],
    where N is the digit of the number of leading [#] clamped into 1..3
    and the style is the entry of that level, and each character of the
    text is replaced as [html.escape] does ([escape_char]): four or more
    [#] give [<h3 ...>], and a bare [#] gives [<h1 ...></h1>]. *)
Theorem heading_level_clamped :
  (∀ (st : RenderState) (raw : str),
     startswith (lit "#") (strip (rstrip raw)) = true →
     ∃ (level : Z) (style : str),
       level = Z.max 1 (Z.min (Z.of_nat (count_leading 35 (strip (rstrip raw)))) 3)
       ∧ (1 ≤ Z.of_nat (count_leading 35 (strip (rstrip raw))))%Z
       ∧ (1 ≤ level ≤ 3)%Z
       ∧ ((4 ≤ count_leading 35 (strip (rstrip raw)))%nat → level = 3%Z)
       ∧ HEADING_STYLES !! level = Some style
       ∧ ((level = 1%Z
           ∧ style = lit "font-size: 22px; margin-top: 28px; margin-bottom: 12px;")
          ∨ (level = 2%Z
             ∧ style = lit "font-size: 18px; margin-top: 24px; margin-bottom: 10px;")
          ∨ (level = 3%Z
             ∧ style = lit "font-size: 16px; margin-top: 20px; margin-bottom: 8px;"))
       ∧ render_line nd_table st raw
         = Some (mkRenderState
                   (html_lines st ++ closing_tags st
                    ++ [lit "<h" ++ [48 + Z.to_N level] ++ lit " style=" ++ [dquote]
                        ++ style ++ [dquote] ++ lit " >"
                        ++ flat_map escape_char (strip (slice_from level (strip (rstrip raw))))
                        ++ lit "</h" ++ [48 + Z.to_N level] ++ lit ">"])
                   false false))
  ∧ (∀ st : RenderState,
       render_line nd_table st (lit "#")
       = Some (mkRenderState
                 (html_lines st ++ closing_tags st
                  ++ [lit "<h1 style=" ++ [dquote]
                      ++ lit "font-size: 22px; margin-top: 28px; margin-bottom: 12px;"
                      ++ [dquote] ++ lit " ></h1>"])
                 false false)).
Proof.
  split.
  - intros st raw H.
    destruct (proj1 heading_level_state st raw H)
      as (level & style & Hl & Hpos & Hrange & H4 & Hst & Hr).
    exists level, style.
    split; [exact Hl|]. split; [exact Hpos|]. split; [exact Hrange|].
    split; [exact H4|]. split; [exact Hst|].
    split; [by apply heading_style_cases|].
    by rewrite Hr, append_close_lists, (heading_fragment_text level style _ Hrange),
      escape_flat_map.
  - intros st.
    rewrite (proj2 heading_level_state st), append_close_lists.
    by rewrite heading_fragment_text by lia.
Qed.


(** The lines with a bare marker, in terms of the fragment and of
    [close_lists]. *)
Lemma bare_marker_state (st : RenderState) (raw : str) :
  strip (rstrip raw) = lit "-"
  ∨ (∃ (c : N) (r : str), strip (rstrip raw) = 45 :: c :: r ∧ c ≠ 32)
  ∨ (∃ ds rest : str,
       strip (rstrip raw) = ds ++ [46] ++ rest
       ∧ ds ≠ [] ∧ forallb (isdecimal nd_table) ds = true
       ∧ ∀ c r, rest = c :: r → isspace c = false) →
  render_line nd_table st raw
  = Some (append (p_fragment (escape (strip (rstrip raw)))) (close_lists st)).
Proof.
  intros [Hs | [(c & r & Hs & Hc) | (ds & rest & Hs & Hne & Hds & Hrest)]].
  - apply render_line_paragraph; rewrite Hs; by vm_compute.
  - apply render_line_paragraph; rewrite Hs.
    + done.
    + by vm_compute.
    + unfold numbered_pattern_match.
      by rewrite (span_stop (isdecimal nd_table) 45 (c :: r)).
    + change (lit "- ") with [45; 32]. cbn [startswith].
      destruct (32 =? c) eqn:E; [apply N.eqb_eq in E; congruence|].
      by rewrite andb_false_r.
  - destruct ds as [|d ds]; [done|].
    pose proof Hds as Hd. cbn [forallb] in Hd. apply andb_prop in Hd as [Hd _].
    destruct (digit_first_not_marker d (ds ++ [46] ++ rest) Hd) as [Hh Hu].
    apply render_line_paragraph; rewrite Hs.
    + done.
    + exact Hh.
    + change ((d :: ds) ++ [46] ++ rest) with ((d :: ds) ++ 46 :: rest).
      rewrite (numbered_match_digits (d :: ds) rest Hne Hds).
      destruct rest as [|c r]; [done|].
      by rewrite (span_stop isspace c r (Hrest c r eq_refl)).
    + exact Hu.
Qed.

(** C10: a dash alone, a dash not followed by a space, and digits with a
    period but no white space after it are rendered by the paragraph rule:
    the loop closes the open list, appends the one line [<p>text</p>]
    with the stripped line as its text, each character replaced as
    [html.escape] does ([escape_char]), and leaves no list open: no [<li>]
    and no list container is appended. *)
Theorem bare_marker_is_paragraph (st : RenderState) (raw : str) :
  strip (rstrip raw) = lit "-"
  ∨ (∃ (c : N) (r : str), strip (rstrip raw) = 45 :: c :: r ∧ c ≠ 32)
  ∨ (∃ ds rest : str,
       strip (rstrip raw) = ds ++ [46] ++ rest
       ∧ ds ≠ [] ∧ forallb (isdecimal nd_table) ds = true
       ∧ ∀ c r, rest = c :: r → isspace c = false) →
  render_line nd_table st raw
  = Some (mkRenderState
            (html_lines st ++ closing_tags st
             ++ [lit "<p>" ++ flat_map escape_char (strip (rstrip raw)) ++ lit "</p>"])
            false false).
Proof.
  intros H.
  by rewrite (bare_marker_state st raw H), append_close_lists, escape_flat_map.
Qed.


Lemma stripped_no_lf (raw markdown : str) :
  raw ∈ splitlines markdown → 0x0A ∉ strip (rstrip raw).
Proof.
  intros Hin Hs. apply stripped_sublist in Hs.
  by apply (splitlines_no_lf markdown raw).
Qed.

Lemma nonempty_last (l : str) : l ≠ [] → ∃ a c, l = a ++ [c].
Proof.
  intros H. destruct (rev l) as [|c a] eqn:E.
  - apply (f_equal (@rev N)) in E. rewrite rev_involutive in E. done.
  - exists (rev a), c. apply (f_equal (@rev N)) in E.
    by rewrite rev_involutive in E.
Qed.

Lemma numbered_match_iff_shape (raw : str) :
  is_Some (numbered_pattern_match nd_table (strip (rstrip raw)))
  ↔ numbered_shape (isdecimal nd_table) (strip (rstrip raw)).
Proof.
  split.
  - intros [m Hm].
    destruct (numbered_match_inv _ m Hm) as (ws & tail & Hs & Hne & Hds & Hwne & Hws & _).
    exists (group1 m), ws, tail. repeat split; try done.
    intros ->. destruct (nonempty_last ws Hwne) as (a & c & ->).
    rewrite app_nil_r in Hs.
    rewrite forallb_app in Hws. apply andb_prop in Hws as [_ Hc].
    cbn [forallb] in Hc. rewrite andb_true_r in Hc.
    rewrite !app_assoc in Hs. apply strip_last in Hs. congruence.
  - intros (ds & ws & rest & Hs & Hne & Hds & Hwne & Hws & _).
    rewrite Hs. change (ds ++ [46] ++ ws ++ rest) with (ds ++ 46 :: (ws ++ rest)).
    rewrite (numbered_match_digits ds _ Hne Hds), (span_run _ ws rest Hws).
    cbn [fst snd]. destruct ws; [done|]. by eexists.
Qed.

(** The ordered-item rule, in terms of the fragments and of [enter_ol]. *)
Lemma ordered_item_state (st : RenderState) (raw markdown : str) :
  raw ∈ splitlines markdown →
  (is_Some (numbered_pattern_match nd_table (strip (rstrip raw)))
   ↔ numbered_shape (isdecimal nd_table) (strip (rstrip raw)))
  ∧ (∀ ds ws rest : str,
       strip (rstrip raw) = ds ++ [46] ++ ws ++ rest →
       ds ≠ [] → forallb (isdecimal nd_table) ds = true →
       ws ≠ [] → forallb isspace ws = true →
       render_line nd_table st raw
       = Some (append (li_fragment (escape (lstrip_by isspace rest))) (enter_ol st)))
  ∧ (strip (rstrip raw) ≠ [] →
     startswith (lit "#") (strip (rstrip raw)) = false →
     ¬ numbered_shape (isdecimal nd_table) (strip (rstrip raw)) →
     render_line nd_table st raw
     = Some (if startswith (lit "- ") (strip (rstrip raw))
             then append (li_fragment (escape (strip (slice_from 2 (strip (rstrip raw))))))
                         (enter_ul st)
             else append (p_fragment (escape (strip (rstrip raw)))) (close_lists st))).
Proof.
  intros Hin. split; [apply numbered_match_iff_shape|]. split.
  - intros ds ws rest Hs Hne Hds Hwne Hws.
    pose proof (stripped_no_lf raw markdown Hin) as Hlf.
    destruct ds as [|d ds]; [done|].
    pose proof Hds as Hd. cbn [forallb] in Hd. apply andb_prop in Hd as [Hd _].
    destruct (digit_first_not_marker d (ds ++ [46] ++ ws ++ rest) Hd) as [Hh _].
    assert (Hm : numbered_pattern_match nd_table (strip (rstrip raw))
                 = Some (mkMatch (d :: ds) (lstrip_by isspace rest))).
    { rewrite Hs.
      change ((d :: ds) ++ [46] ++ ws ++ rest) with ((d :: ds) ++ 46 :: (ws ++ rest)).
      rewrite (numbered_match_digits (d :: ds) _ Hne Hds), (span_run _ ws rest Hws).
      cbn [fst snd]. rewrite <- lstrip_by_span.
      rewrite span_no_lf.
      - by destruct ws.
      - intros Hc. apply lstrip_by_sublist in Hc. apply Hlf. rewrite Hs.
        rewrite !elem_of_app. by repeat right. }
    rewrite (render_line_ordered st raw _ (eq_ind_r (λ s, startswith _ s = false) Hh Hs) Hm).
    done.
  - intros Hne Hh Hshape.
    destruct (numbered_pattern_match nd_table (strip (rstrip raw))) as [m|] eqn:Hm.
    { exfalso. apply Hshape. apply numbered_match_iff_shape. rewrite Hm. by eexists. }
    destruct (startswith (lit "- ") (strip (rstrip raw))) eqn:Hu.
    + by apply render_line_unordered.
    + by apply render_line_paragraph.
Qed.

(** C5: the stripped form of a line matches the pattern exactly when it
    is digits, a period, white space and content; such a line appends the
    line [<li>content</li>] with the content after the white space, each
    character replaced as [html.escape] does ([escape_char]), whatever the
    digits are, after [<ol>] (and the closing tag of an
    open unordered list) when the ordered list is not open; and a line
    that is not blank, no heading and not of that shape is rendered by the
    two rules that follow, as an item of the unordered list or as a
    paragraph. *)
Theorem ordered_item_rule (st : RenderState) (raw markdown : str) :
  raw ∈ splitlines markdown →
  (is_Some (numbered_pattern_match nd_table (strip (rstrip raw)))
   ↔ numbered_shape (isdecimal nd_table) (strip (rstrip raw)))
  ∧ (∀ ds ws rest : str,
       strip (rstrip raw) = ds ++ [46] ++ ws ++ rest →
       ds ≠ [] → forallb (isdecimal nd_table) ds = true →
       ws ≠ [] → forallb isspace ws = true →
       render_line nd_table st raw
       = Some (if in_ol st
               then mkRenderState
                      (html_lines st
                       ++ [lit "<li>" ++ flat_map escape_char (lstrip_by isspace rest) ++ lit "</li>"])
                      (in_ul st) true
               else mkRenderState
                      (html_lines st ++ closing_tags st
                       ++ [lit "<ol>";
                           lit "<li>" ++ flat_map escape_char (lstrip_by isspace rest) ++ lit "</li>"])
                      false true))
  ∧ (strip (rstrip raw) ≠ [] →
     startswith (lit "#") (strip (rstrip raw)) = false →
     ¬ numbered_shape (isdecimal nd_table) (strip (rstrip raw)) →
     render_line nd_table st raw
     = Some (if startswith (lit "- ") (strip (rstrip raw))
             then
               if in_ul st
               then mkRenderState
                      (html_lines st
                       ++ [lit "<li>"
                           ++ flat_map escape_char (strip (slice_from 2 (strip (rstrip raw))))
                           ++ lit "</li>"])
                      true (in_ol st)
               else mkRenderState
                      (html_lines st ++ closing_tags st
                       ++ [lit "<ul>";
                           lit "<li>"
                           ++ flat_map escape_char (strip (slice_from 2 (strip (rstrip raw))))
                           ++ lit "</li>"])
                      true false
             else mkRenderState
                    (html_lines st ++ closing_tags st
                     ++ [lit "<p>" ++ flat_map escape_char (strip (rstrip raw)) ++ lit "</p>"])
                    false false)).
Proof.
  intros Hin.
  destruct (ordered_item_state st raw markdown Hin) as (Hiff & Hitem & Hother).
  split; [exact Hiff|]. split.
  - intros ds ws rest Hs Hne Hds Hwne Hws.
    by rewrite (Hitem ds ws rest Hs Hne Hds Hwne Hws), append_enter_ol, escape_flat_map.
  - intros Hne Hh Hshape. rewrite (Hother Hne Hh Hshape).
    destruct (startswith (lit "- ") (strip (rstrip raw))).
    + by rewrite append_enter_ul, escape_flat_map.
    + by rewrite append_close_lists, escape_flat_map.
Qed.


End RenderLine.

(** ** Scanning the output for list tags *)

Lemma scan_lists_cons (ctx : ListCtx) (c : N) (s : str) :
  scan_lists ctx (c :: s)
  = if startswith [60; 117; 108; 62] (c :: s) then
      match ctx with NoList => scan_lists InUl s | _ => None end
    else if startswith [60; 47; 117; 108; 62] (c :: s) then
      match ctx with InUl => scan_lists NoList s | _ => None end
    else if startswith [60; 111; 108; 62] (c :: s) then
      match ctx with NoList => scan_lists InOl s | _ => None end
    else if startswith [60; 47; 111; 108; 62] (c :: s) then
      match ctx with InOl => scan_lists NoList s | _ => None end
    else scan_lists ctx s.
Proof. reflexivity. Qed.

Lemma scan_lists_skip (ctx : ListCtx) (c : N) (s : str) :
  c ≠ 60 → scan_lists ctx (c :: s) = scan_lists ctx s.
Proof.
  intros H. rewrite scan_lists_cons. cbn [startswith].
  destruct (60 =? c) eqn:E; [apply N.eqb_eq in E; congruence|]. done.
Qed.

Lemma scan_lists_lt (ctx : ListCtx) (d : N) (s : str) :
  d ≠ 117 → d ≠ 111 → d ≠ 47 →
  scan_lists ctx (60 :: d :: s) = scan_lists ctx (d :: s).
Proof.
  intros H1 H2 H3. rewrite scan_lists_cons. cbn [startswith].
  rewrite N.eqb_refl.
  destruct (117 =? d) eqn:E1; [apply N.eqb_eq in E1; congruence|].
  destruct (111 =? d) eqn:E2; [apply N.eqb_eq in E2; congruence|].
  destruct (47 =? d) eqn:E3; [apply N.eqb_eq in E3; congruence|]. done.
Qed.

Lemma scan_lists_lt_slash (ctx : ListCtx) (e : N) (s : str) :
  e ≠ 117 → e ≠ 111 →
  scan_lists ctx (60 :: 47 :: e :: s) = scan_lists ctx (47 :: e :: s).
Proof.
  intros H1 H2. rewrite scan_lists_cons. cbn [startswith].
  rewrite !N.eqb_refl.
  destruct (117 =? e) eqn:E1; [apply N.eqb_eq in E1; congruence|].
  destruct (111 =? e) eqn:E2; [apply N.eqb_eq in E2; congruence|]. done.
Qed.

Lemma tag_free_neutral (a : str) : tag_free a = true → neutral a.
Proof.
  induction a as [|c a IH]; intros H ctx s; [done|].
  cbn [tag_free] in H. apply andb_prop in H as [Hc Ha].
  specialize (IH Ha).
  destruct (c =? 60) eqn:Ec.
  - apply N.eqb_eq in Ec. subst c.
    destruct a as [|d a]; [done|].
    destruct (d =? 47) eqn:Ed.
    + apply N.eqb_eq in Ed. subst d.
      destruct a as [|e a]; [done|].
      apply andb_prop in Hc as [He1 He2].
      apply negb_true_iff, N.eqb_neq in He1, He2.
      cbn [app]. rewrite scan_lists_lt_slash by done. apply (IH ctx s).
    + apply N.eqb_neq in Ed.
      apply andb_prop in Hc as [Hd1 Hd2].
      apply negb_true_iff, N.eqb_neq in Hd1, Hd2.
      cbn [app]. rewrite scan_lists_lt by done. apply (IH ctx s).
  - apply N.eqb_neq in Ec. cbn [app]. rewrite scan_lists_skip by done. apply IH.
Qed.

Lemma no_lt_tag_free (a : str) : 60 ∉ a → tag_free a = true.
Proof.
  induction a as [|c a IH]; [done|].
  rewrite not_elem_of_cons. intros [Hc Ha]. cbn [tag_free].
  destruct (c =? 60) eqn:E; [apply N.eqb_eq in E; congruence|].
  by rewrite IH.
Qed.

Lemma neutral_app (a b : str) : neutral a → neutral b → neutral (a ++ b).
Proof. intros Ha Hb ctx s. by rewrite <- app_assoc, Ha, Hb. Qed.

Lemma neutral_escape (text : str) : neutral (escape text).
Proof. apply tag_free_neutral, no_lt_tag_free, escape_no_lt. Qed.

(** Pass over the first piece of the text under [scan_lists]: an escaped
    text, or a piece that [tag_free] accepts by computation. *)
Ltac pass_piece :=
  lazymatch goal with
  | |- scan_lists ?c (escape ?t ++ ?r) = _ => rewrite (neutral_escape t c r)
  | |- scan_lists ?c (?a ++ ?r) = _ =>
      let H := fresh in
      assert (H : tag_free a = true) by (vm_compute; reflexivity);
      rewrite (tag_free_neutral a H c r); clear H
  end.

Lemma neutral_li (text : str) : neutral (li_fragment (escape text) ++ newline).
Proof.
  intros ctx s. unfold li_fragment. rewrite <- !app_assoc.
  by repeat pass_piece.
Qed.

Lemma neutral_p (text : str) : neutral (p_fragment (escape text) ++ newline).
Proof.
  intros ctx s. unfold p_fragment. rewrite <- !app_assoc.
  by repeat pass_piece.
Qed.

Lemma neutral_heading (level : Z) (style text : str) :
  HEADING_STYLES !! level = Some style →
  neutral (heading_fragment level style (escape text) ++ newline).
Proof.
  intros H ctx s.
  assert (Hl : level = 1%Z ∨ level = 2%Z ∨ level = 3%Z).
  { unfold HEADING_STYLES in H.
    destruct (decide (level = 1%Z)) as [->|?]; [by left|].
    destruct (decide (level = 2%Z)) as [->|?]; [by right; left|].
    destruct (decide (level = 3%Z)) as [->|?]; [by right; right|].
    by rewrite !lookup_insert_ne, lookup_singleton_ne in H. }
  unfold heading_fragment.
  destruct Hl as [-> | [-> | ->]];
    vm_compute in H; injection H as <-;
    rewrite <- !app_assoc; by repeat pass_piece.
Qed.

Lemma startswith_app_nl (t x b : str) :
  0x0A ∉ t → x ≠ [] → ends_nl x = true →
  startswith t (x ++ b) = startswith t x.
Proof.
  revert x. induction t as [|a t IH]; intros x Ht Hx Hnl; [done|].
  rewrite not_elem_of_cons in Ht. destruct Ht as [Ha Ht].
  destruct x as [|c x]; [done|]. cbn [app startswith].
  destruct x as [|c' x].
  - cbn [ends_nl] in Hnl. apply N.eqb_eq in Hnl. subst c.
    destruct (a =? 10) eqn:E; [apply N.eqb_eq in E; congruence|]. done.
  - rewrite (IH (c' :: x)); done.
Qed.

(** Scanning a text that ends with a line feed, then what follows it. *)
Lemma scan_lists_app_nl (a b : str) : ∀ ctx : ListCtx,
  ends_nl a = true →
  scan_lists ctx (a ++ b) = scan_lists ctx a ≫= λ c, scan_lists c b.
Proof.
  induction a as [|c a IH]; intros ctx Hnl; [done|].
  assert (Ha : ends_nl a = true).
  { destruct a as [|c' a]; [done|]. exact Hnl. }
  change ((c :: a) ++ b) with (c :: (a ++ b)).
  rewrite !scan_lists_cons.
  change (c :: (a ++ b)) with ((c :: a) ++ b).
  rewrite !(startswith_app_nl _ (c :: a) b)
    by first [ done
             | repeat (apply not_elem_of_cons; split; [done|]); apply not_elem_of_nil ].
  repeat (match goal with
          | |- context [if ?t then _ else _] => destruct t
          end); destruct ctx; try done; apply IH; done.
Qed.

Lemma ends_nl_app (a b : str) : b ≠ [] → ends_nl (a ++ b) = ends_nl b.
Proof.
  intros Hb. induction a as [|c a IH]; [done|].
  cbn [app ends_nl]. destruct (a ++ b) eqn:E; [|done].
  apply app_eq_nil in E as [_ ?]. done.
Qed.

Lemma unlines_app (a b : list str) : unlines (a ++ b) = unlines a ++ unlines b.
Proof. apply flat_map_app. Qed.

Lemma ends_nl_unlines (lines : list str) : ends_nl (unlines lines) = true.
Proof.
  induction lines as [|l lines IH]; [done|].
  change (unlines (l :: lines)) with ((l ++ newline) ++ unlines lines).
  destruct (unlines lines) as [|c r] eqn:E.
  - rewrite app_nil_r. by rewrite ends_nl_app.
  - by rewrite ends_nl_app.
Qed.

(** The output after one more line is appended. *)
Lemma scan_lists_append (lines : list str) (f : str) (ctx : ListCtx) :
  scan_lists NoList (unlines lines) = Some ctx →
  scan_lists NoList (unlines (lines ++ [f])) = scan_lists ctx (f ++ newline).
Proof.
  intros H. rewrite unlines_app, scan_lists_app_nl by apply ends_nl_unlines.
  rewrite H. cbn [mbind option_bind]. unfold unlines. cbn [flat_map].
  by rewrite app_nil_r.
Qed.

Lemma join_unlines (lines : list str) (x : str) :
  join newline (lines ++ [x]) = unlines lines ++ x.
Proof.
  induction lines as [|l lines IH]; [done|].
  change (unlines (l :: lines)) with ((l ++ newline) ++ unlines lines).
  rewrite <- !app_assoc, <- IH. cbn [app join].
  destruct (lines ++ [x]) eqn:E; [|done].
  apply app_eq_nil in E as [_ ?]. done.
Qed.

(** ** The invariant of the loop *)

Lemma fixed_is_body_fragment (f : str) : f ∈ fixed_fragments → body_fragment f.
Proof. by left. Qed.

Lemma well_formed_initial : well_formed initial_state.
Proof.
  split; [done|]. split; [by vm_compute|].
  exists []. by rewrite app_nil_r.
Qed.

Lemma well_formed_flags (st : RenderState) :
  well_formed st →
  (in_ul st = false ∧ in_ol st = false ∧ ctx_of st = NoList)
  ∨ (in_ul st = true ∧ in_ol st = false ∧ ctx_of st = InUl)
  ∨ (in_ul st = false ∧ in_ol st = true ∧ ctx_of st = InOl).
Proof.
  intros [H _]. unfold ctx_of. destruct (in_ul st), (in_ol st); try done; tauto.
Qed.

Lemma well_formed_append (f : str) (st : RenderState) :
  well_formed st → neutral (f ++ newline) → body_fragment f →
  well_formed (append f st).
Proof.
  intros (Hf & Hs & body & Hb & HF) Hn Hbf. unfold append.
  split; [exact Hf|]. split.
  - cbn [html_lines]. rewrite (scan_lists_append _ f _ Hs).
    rewrite <- (app_nil_r (f ++ newline)). by rewrite Hn.
  - exists (body ++ [f]). cbn [html_lines]. split.
    + by rewrite Hb, app_assoc.
    + apply Forall_app. split; [done|]. by constructor.
Qed.

(** Appending a list tag moves the scan from one list context to another. *)
Lemma well_formed_tag (tag : str) (st : RenderState) (ul ol : bool) (ctx : ListCtx) :
  well_formed st → tag ∈ fixed_fragments →
  scan_lists (ctx_of st) (tag ++ newline) = Some ctx →
  ul && ol = false →
  ctx = (if ul then InUl else if ol then InOl else NoList) →
  well_formed (mkRenderState (html_lines st ++ [tag]) ul ol).
Proof.
  intros (Hf & Hs & body & Hb & HF) Htag Hscan Hflags Hctx.
  split; [exact Hflags|]. split.
  - cbn [html_lines]. rewrite (scan_lists_append _ tag _ Hs), Hscan.
    unfold ctx_of. cbn [in_ul in_ol]. by rewrite Hctx.
  - exists (body ++ [tag]). cbn [html_lines]. split.
    + by rewrite Hb, app_assoc.
    + apply Forall_app. split; [done|]. constructor; [by left|done].
Qed.

Lemma well_formed_close_lists (st : RenderState) :
  well_formed st → well_formed (close_lists st).
Proof.
  intros Hwf. rewrite close_lists_eq. unfold closing_tags.
  destruct (well_formed_flags st Hwf) as [(Hu & Ho & Hc) | [(Hu & Ho & Hc) | (Hu & Ho & Hc)]];
    rewrite Hu, Ho; cbn [app].
  - rewrite app_nil_r. destruct Hwf as (Hf & Hs & Hb).
    split; [done|]. split; [|done]. cbn [html_lines]. by rewrite Hs, Hc.
  - apply (well_formed_tag _ st false false NoList); try done.
    + unfold fixed_fragments. set_solver.
    + rewrite Hc. by vm_compute.
  - apply (well_formed_tag _ st false false NoList); try done.
    + unfold fixed_fragments. set_solver.
    + rewrite Hc. by vm_compute.
Qed.

Lemma close_lists_flags (st : RenderState) :
  in_ul (close_lists st) = false ∧ in_ol (close_lists st) = false.
Proof. by rewrite close_lists_eq. Qed.

Lemma well_formed_enter_ol (st : RenderState) :
  well_formed st →
  well_formed (enter_ol st) ∧ in_ul (enter_ol st) = false ∧ in_ol (enter_ol st) = true.
Proof.
  intros Hwf. unfold enter_ol. destruct (in_ol st) eqn:Ho.
  - destruct (well_formed_flags st Hwf) as [(? & ? & ?) | [(? & ? & ?) | (? & ? & ?)]];
      try congruence. done.
  - pose proof (well_formed_close_lists st Hwf) as Hc.
    destruct (close_lists_flags st) as [Hu' Ho'].
    split; [|done]. unfold set_in_ol, append.
    cbn [html_lines in_ul in_ol]. rewrite Hu'.
    apply (well_formed_tag _ (close_lists st) false true InOl); try done.
    + unfold fixed_fragments. set_solver.
    + unfold ctx_of. rewrite Hu', Ho'. by vm_compute.
Qed.

Lemma well_formed_enter_ul (st : RenderState) :
  well_formed st →
  well_formed (enter_ul st) ∧ in_ul (enter_ul st) = true ∧ in_ol (enter_ul st) = false.
Proof.
  intros Hwf. unfold enter_ul. destruct (in_ul st) eqn:Hu.
  - destruct (well_formed_flags st Hwf) as [(? & ? & ?) | [(? & ? & ?) | (? & ? & ?)]];
      try congruence. done.
  - pose proof (well_formed_close_lists st Hwf) as Hc.
    destruct (close_lists_flags st) as [Hu' Ho'].
    split; [|done]. unfold set_in_ul, append.
    cbn [html_lines in_ul in_ol]. rewrite Ho'.
    apply (well_formed_tag _ (close_lists st) true false InUl); try done.
    + unfold fixed_fragments. set_solver.
    + unfold ctx_of. rewrite Hu', Ho'. by vm_compute.
Qed.

(** ** The whole document *)

Section Document.

Variable nd_table : N → bool.

(** What one turn of the loop does to the state, rule by rule. *)
Lemma render_line_cases (st : RenderState) (raw : str) :
  ∃ st', render_line nd_table st raw = Some st'
    ∧ (st' = append blank_fragment (close_lists st)
       ∨ (∃ level style text,
            HEADING_STYLES !! level = Some style
            ∧ st' = append (heading_fragment level style (escape text)) (close_lists st))
       ∨ (∃ text, st' = append (li_fragment (escape text)) (enter_ol st))
       ∨ (∃ text, st' = append (li_fragment (escape text)) (enter_ul st))
       ∨ (∃ text, st' = append (p_fragment (escape text)) (close_lists st))).
Proof.
  destruct (strip (rstrip raw)) as [|h t] eqn:Hs.
  { eexists. split; [by apply render_line_blank|]. by left. }
  destruct (startswith (lit "#") (strip (rstrip raw))) eqn:Hh.
  { destruct (render_line_heading nd_table st raw Hh) as (style & Hst & ->).
    eexists. split; [done|]. right; left. by eexists _, style, _. }
  destruct (numbered_pattern_match nd_table (strip (rstrip raw))) as [m|] eqn:Hm.
  { eexists. split; [by apply render_line_ordered|]. right; right; left. by eexists. }
  destruct (startswith (lit "- ") (strip (rstrip raw))) eqn:Hu.
  { eexists. split; [by apply render_line_unordered|]. do 3 right; left. by eexists. }
  eexists. split; [apply render_line_paragraph; try done; by rewrite Hs|].
  do 4 right. by eexists.
Qed.

Lemma render_line_well_formed (st st' : RenderState) (raw : str) :
  well_formed st → render_line nd_table st raw = Some st' → well_formed st'.
Proof.
  intros Hwf Hr.
  destruct (render_line_cases st raw) as (st'' & Hr' & Hc).
  rewrite Hr in Hr'. injection Hr' as <-.
  destruct Hc as [-> | [(level & style & text & Hst & ->)
                       | [(text & ->) | [(text & ->) | (text & ->)]]]].
  - apply well_formed_append; [by apply well_formed_close_lists| |].
    + by apply tag_free_neutral.
    + left. unfold fixed_fragments. set_solver.
  - apply well_formed_append; [by apply well_formed_close_lists| |].
    + by apply neutral_heading.
    + right. exists text. right; right. by exists level, style.
  - apply well_formed_append; [by apply well_formed_enter_ol| |].
    + apply neutral_li.
    + right. exists text. by left.
  - apply well_formed_append; [by apply well_formed_enter_ul| |].
    + apply neutral_li.
    + right. exists text. by left.
  - apply well_formed_append; [by apply well_formed_close_lists| |].
    + apply neutral_p.
    + right. exists text. right. by left.
Qed.

Lemma render_lines_app (st : RenderState) (a b : list str) :
  render_lines nd_table st (a ++ b)
  = render_lines nd_table st a ≫= λ st', render_lines nd_table st' b.
Proof.
  revert st. induction a as [|l a IH]; intros st; [done|].
  cbn [app render_lines].
  destruct (render_line nd_table st l) as [st'|]; [|done].
  cbn [mbind option_bind]. apply IH.
Qed.

(** The loop runs to its end from any state, and keeps the invariant. *)
Lemma render_lines_well_formed (lines : list str) : ∀ st : RenderState,
  well_formed st →
  ∃ st', render_lines nd_table st lines = Some st' ∧ well_formed st'.
Proof.
  induction lines as [|l lines IH]; intros st Hwf.
  - by exists st.
  - destruct (render_line_total nd_table st l) as [st1 H1].
    destruct (IH st1 (render_line_well_formed st st1 l Hwf H1)) as (st' & H' & Hwf').
    exists st'. split; [|done]. cbn [render_lines]. by rewrite H1.
Qed.

(** The result of [markdown_to_html]: the shell around a body of fragments,
    with balanced list tags. *)
Lemma markdown_to_html_body (markdown : str) :
  ∃ body : list str,
    markdown_to_html nd_table markdown
    = Some (join newline (shell_head ++ body ++ shell_tail))
    ∧ Forall body_fragment body
    ∧ lists_balanced (join newline (shell_head ++ body ++ shell_tail)).
Proof.
  destruct (render_lines_well_formed (splitlines markdown) initial_state
              well_formed_initial) as (st & Hr & Hwf).
  pose proof (well_formed_close_lists st Hwf) as (Hf & Hs & body & Hb & HF).
  destruct (close_lists_flags st) as [Hu Ho].
  exists body. unfold markdown_to_html. rewrite Hr. cbn [mbind option_bind].
  rewrite Hb, <- app_assoc. split; [done|]. split; [done|].
  unfold lists_balanced, shell_tail.
  replace (shell_head ++ body ++ [lit "</body>"; lit "</html>"])
    with (((shell_head ++ body) ++ [lit "</body>"]) ++ [lit "</html>"])
    by (by rewrite <- !app_assoc).
  rewrite join_unlines, scan_lists_app_nl by apply ends_nl_unlines.
  rewrite <- Hb, (scan_lists_append _ _ _ Hs).
  unfold ctx_of. rewrite Hu, Ho. by vm_compute.
Qed.

Lemma dash_item_tests (s : str) :
  startswith (lit "- ") s = true →
  startswith (lit "#") s = false ∧ numbered_pattern_match nd_table s = None.
Proof.
  change (lit "- ") with [45; 32]. change (lit "#") with [35].
  destruct s as [|c s]; [done|]. cbn [startswith].
  intros [Hc _]%andb_prop. apply N.eqb_eq in Hc. subst c.
  split; [done|]. unfold numbered_pattern_match.
  by rewrite (span_stop (isdecimal nd_table) 45 s).
Qed.

Lemma numbered_match_not_heading (s : str) (m : Match) :
  numbered_pattern_match nd_table s = Some m → startswith (lit "#") s = false.
Proof.
  intros Hm.
  destruct (numbered_match_inv nd_table s m Hm) as (ws & tail & -> & Hne & Hds & _).
  destruct (group1 m) as [|d ds]; [done|].
  cbn [forallb] in Hds. apply andb_prop in Hds as [Hd _].
  by destruct (digit_first_not_marker nd_table d (ds ++ [46] ++ ws ++ tail) Hd).
Qed.


(** C1: the output of [markdown_to_html] scans with balanced list tags
    and never two lists open at once, for every input; and when an
    unordered item is followed at once by an ordered item, the loop
    appends the closing tag of the unordered list, then the opening tag
    of the ordered list, then the item. *)
Theorem list_tags_balanced :
  (∀ markdown : str,
     ∃ html : str,
       markdown_to_html nd_table markdown = Some html ∧ lists_balanced html)
  ∧ (∀ (before : list str) (u o : str) (m : Match),
       startswith (lit "- ") (strip (rstrip u)) = true →
       numbered_pattern_match nd_table (strip (rstrip o)) = Some m →
       ∃ st1 st2 : RenderState,
         render_lines nd_table initial_state (before ++ [u]) = Some st1
         ∧ render_lines nd_table initial_state (before ++ [u; o]) = Some st2
         ∧ html_lines st2
           = html_lines st1
             ++ [lit "</ul>"; lit "<ol>"; li_fragment (escape (group2 m))]).
Proof.
  split.
  - intros markdown.
    destruct (markdown_to_html_body markdown) as (body & Hm & _ & Hb).
    by eexists.
  - intros before u o m Hu Ho.
    destruct (render_lines_well_formed before initial_state well_formed_initial)
      as (st0 & Hr0 & Hwf0).
    destruct (dash_item_tests _ Hu) as [Hh Hn].
    pose proof (render_line_unordered nd_table st0 u Hh Hn Hu) as Hr1.
    pose proof (render_line_ordered nd_table
                  (append (li_fragment (escape (strip (slice_from 2 (strip (rstrip u))))))
                          (enter_ul st0))
                  o m (numbered_match_not_heading _ m Ho) Ho) as Hr2.
    destruct (well_formed_enter_ul st0 Hwf0) as (_ & Hul & Hol).
    eexists _, _. split; [|split].
    + rewrite render_lines_app, Hr0. cbn [mbind option_bind render_lines].
      by rewrite Hr1.
    + rewrite render_lines_app, Hr0. cbn [mbind option_bind render_lines].
      rewrite Hr1. cbn [mbind option_bind]. by rewrite Hr2.
    + unfold enter_ol at 1. unfold append at 1 2 3.
      cbn [in_ol in_ul html_lines]. rewrite Hol.
      unfold set_in_ol, append. cbn [html_lines].
      rewrite close_lists_eq. unfold closing_tags.
      cbn [html_lines in_ul in_ol]. rewrite Hul, Hol.
      cbn [app]. by rewrite <- !app_assoc.
Qed.

(** C4: escaped text holds no angle bracket and no quote, and each of
    its ampersands starts a character reference; and every fragment of
    the body is a fixed one or an element around escaped text. *)
Theorem embedded_text_is_escaped :
  (∀ text : str, no_raw_special (escape text) = true)
  ∧ (∀ markdown : str,
       ∃ body : list str,
         markdown_to_html nd_table markdown
         = Some (join newline (shell_head ++ body ++ shell_tail))
         ∧ Forall body_fragment body).
Proof.
  split; [apply no_raw_special_escape|].
  intros markdown.
  destruct (markdown_to_html_body markdown) as (body & Hm & HF & _).
  by exists body.
Qed.


(** C2, on the code: the heading text is cut after the clamped level, not
    after the whole run of [#].  With four [#] the text keeps one of them,
    where the text after the run is [Title], or empty for a line of [#] only. *)
Theorem heading_text_keeps_surplus_hashes :
  markdown_to_html nd_table (lit "#### Title")
  = Some (join newline
            (shell_head
             ++ [heading_fragment 3
                   (lit "font-size: 16px; margin-top: 20px; margin-bottom: 8px;")
                   (lit "# Title")]
             ++ shell_tail))
  ∧ heading_text_after_run (lit "#### Title") = lit "Title"
  ∧ markdown_to_html nd_table (lit "####")
    = Some (join newline
              (shell_head
               ++ [heading_fragment 3
                     (lit "font-size: 16px; margin-top: 20px; margin-bottom: 8px;")
                     (lit "#")]
               ++ shell_tail))
  ∧ heading_text_after_run (lit "####") = [].
Proof. repeat split; by vm_compute. Qed.

End Document.

(** ** The orchestrator *)

Section OrchestratorProperties.

Variable nd_table : N → bool.
Variable os : Platform.


(** The clean-up in the [finally] block never raises. *)
Lemma cleanup_returns (tmp_path : str) (w : World) :
  except_OSError_pass (os_remove os tmp_path) w
  = (Returned (), set_files (after_cleanup os (files w) tmp_path) w).
Proof.
  unfold except_OSError_pass, os_remove, after_cleanup, set_files.
  destruct w as [fs out err cmds]. cbn [files stdout stderr spawned].
  destruct (fs !! tmp_path) as [b|] eqn:E.
  - rewrite bool_decide_eq_true_2 by (by eexists). cbn [andb].
    by destruct (remove_denied os fs tmp_path).
  - rewrite bool_decide_eq_false_2 by (by intros [? ?]). cbn [andb is_OSError].
    by rewrite delete_id.
Qed.

Lemma after_cleanup_gone (fs : gmap str (list N)) (tmp_path : str) :
  remove_denied os fs tmp_path = false → after_cleanup os fs tmp_path !! tmp_path = None.
Proof.
  intros H. unfold after_cleanup. rewrite H, andb_false_r. apply lookup_delete_eq.
Qed.

(** What [convert_to_pdf] does once the source has been read. *)
Lemma convert_to_pdf_run (src dst : str) (w : World) (bytes : list N)
    (text html : str) (outcome : ProcOutcome) (fs : gmap str (list N)) :
  files w !! src = Some bytes →
  utf8_decode os bytes = Some text →
  markdown_to_html nd_table text = Some html →
  temp_create_denied os (files w) = false →
  temp_write_error os (files w) (path_str os (temp_name os (files w)))
    (utf8_encode os html) = None →
  run_command os
    (textutil_command (path_str os (temp_name os (files w))) dst)
    (<[path_str os (temp_name os (files w)) := utf8_encode os html]> (files w))
  = (outcome, fs) →
  convert_to_pdf nd_table os src dst w
  = (primary_result outcome (textutil_command (path_str os (temp_name os (files w))) dst),
     mkWorld (after_cleanup os fs (path_str os (temp_name os (files w))))
             (stdout w) (stderr w)
             (spawned w
              ++ [textutil_command (path_str os (temp_name os (files w))) dst])).
Proof.
  intros Hf Hd Hm Hcr Hwr Hrun.
  unfold convert_to_pdf, io_bind, read_text. rewrite Hf, Hd, Hm.
  unfold io_ret, write_temporary, try_finally, subprocess_run_check.
  rewrite Hcr, Hwr.
  cbn [files set_files stdout stderr spawned]. rewrite Hrun.
  destruct outcome as [[|code|code]|];
    rewrite cleanup_returns; reflexivity.
Qed.

Lemma main_found (argv0 arg1 arg2 : str) (w : World) (bytes : list N) :
  files w !! path_str os arg1 = Some bytes →
  main nd_table os [argv0; arg1; arg2] w
  = (convert_to_pdf nd_table os (path_str os arg1) (path_str os arg2) ;;
     print_stdout (lit "Wrote " ++ path_str os arg2) ;;
     io_ret 0%Z) w.
Proof.
  intros H. unfold main, io_bind at 1, path_exists.
  rewrite H. by rewrite bool_decide_eq_true_2 by (by eexists).
Qed.

Lemma run_script_found (argv0 arg1 arg2 : str) (w w' : World) (bytes : list N)
    (r : Result unit) :
  files w !! path_str os arg1 = Some bytes →
  convert_to_pdf nd_table os (path_str os arg1) (path_str os arg2) w = (r, w') →
  run_script nd_table os [argv0; arg1; arg2] w
  = match r with
    | Returned _ =>
        (0%Z, mkWorld (files w') (stdout w' ++ [lit "Wrote " ++ path_str os arg2])
                      (stderr w') (spawned w'))
    | Raised _ =>
        (1%Z, mkWorld (files w') (stdout w')
                      (stderr w' ++ [lit "Traceback (most recent call last):"])
                      (spawned w'))
    end.
Proof.
  intros Hf Hc. unfold run_script. rewrite (main_found argv0 arg1 arg2 w bytes Hf).
  unfold io_bind at 1. rewrite Hc. by destruct r.
Qed.

(** What [convert_to_pdf] does when the write of the transient file fails. *)
Lemma convert_to_pdf_write_fails (src dst : str) (w : World) (bytes remains : list N)
    (text html : str) :
  files w !! src = Some bytes →
  utf8_decode os bytes = Some text →
  markdown_to_html nd_table text = Some html →
  temp_create_denied os (files w) = false →
  temp_write_error os (files w) (path_str os (temp_name os (files w)))
    (utf8_encode os html) = Some remains →
  convert_to_pdf nd_table os src dst w
  = (Raised (OSError (path_str os (temp_name os (files w)))),
     mkWorld (<[path_str os (temp_name os (files w)) := remains]> (files w))
             (stdout w) (stderr w) (spawned w)).
Proof.
  intros Hf Hd Hm Hcr Hwr.
  unfold convert_to_pdf, io_bind, read_text. rewrite Hf, Hd, Hm.
  unfold io_ret, write_temporary. by rewrite Hcr, Hwr.
Qed.

(** C9, on the code: the transient file is created and written before
    the [try] block.  When the write fails, the exception leaves
    [convert_to_pdf] past the clean-up: the file stays behind with what
    the failed write left in it, no command is run, and the script ends
    with status 1. *)
Theorem failed_write_leaves_transient_file (argv0 arg1 arg2 : str) (w : World)
    (bytes remains : list N) (text html src dst tmp_path : str) :
  src = path_str os arg1 → dst = path_str os arg2 →
  tmp_path = path_str os (temp_name os (files w)) →
  files w !! src = Some bytes →
  utf8_decode os bytes = Some text →
  markdown_to_html nd_table text = Some html →
  temp_create_denied os (files w) = false →
  temp_write_error os (files w) tmp_path (utf8_encode os html) = Some remains →
  convert_to_pdf nd_table os src dst w
  = (Raised (OSError tmp_path),
     mkWorld (<[tmp_path := remains]> (files w)) (stdout w) (stderr w) (spawned w))
  ∧ files (convert_to_pdf nd_table os src dst w).2 !! tmp_path = Some remains
  ∧ run_script nd_table os [argv0; arg1; arg2] w
    = (1%Z,
       mkWorld (<[tmp_path := remains]> (files w)) (stdout w)
               (stderr w ++ [lit "Traceback (most recent call last):"])
               (spawned w)).
Proof.
  intros -> -> -> Hf Hd Hm Hcr Hwr.
  pose proof (convert_to_pdf_write_fails _ (path_str os arg2) w bytes remains text html
                Hf Hd Hm Hcr Hwr) as Hc.
  split; [exact Hc|]. split.
  - rewrite Hc. cbn [snd files]. apply lookup_insert_eq.
  - by rewrite (run_script_found argv0 arg1 arg2 w _ bytes _ Hf Hc).
Qed.

(** X15: once the source is read and the transient file written,
    [convert_to_pdf] runs the tool and cleans up, whatever the tool did:
    the outcome of the tool alone decides what is returned or raised (a
    failure status raises [CalledProcessError], and the script then ends
    with status 1), and after the clean-up the transient file is gone
    unless the system refuses to unlink it, which is not reported. *)
Theorem temporary_file_cleanup (argv0 arg1 arg2 : str) (w : World)
    (bytes : list N) (text src dst tmp_path : str) (cmd : list str) :
  src = path_str os arg1 → dst = path_str os arg2 →
  tmp_path = path_str os (temp_name os (files w)) →
  cmd = textutil_command tmp_path dst →
  files w !! src = Some bytes →
  utf8_decode os bytes = Some text →
  temp_create_denied os (files w) = false →
  (∀ html : str,
     markdown_to_html nd_table text = Some html →
     temp_write_error os (files w) tmp_path (utf8_encode os html) = None) →
  ∃ html : str,
    markdown_to_html nd_table text = Some html
    ∧ ∀ (outcome : ProcOutcome) (fs : gmap str (list N)),
        run_command os cmd (<[tmp_path := utf8_encode os html]> (files w))
        = (outcome, fs) →
        convert_to_pdf nd_table os src dst w
        = (primary_result outcome cmd,
           mkWorld (after_cleanup os fs tmp_path) (stdout w) (stderr w)
                   (spawned w ++ [cmd]))
        ∧ (∀ code : Z, outcome = Exited code → code ≠ 0%Z →
             primary_result outcome cmd = Raised (CalledProcessError code cmd))
        ∧ (remove_denied os fs tmp_path = false →
           after_cleanup os fs tmp_path !! tmp_path = None)
        ∧ (outcome ≠ Exited 0 →
           (run_script nd_table os [argv0; arg1; arg2] w).1 = 1%Z
           ∧ files (run_script nd_table os [argv0; arg1; arg2] w).2
             = after_cleanup os fs tmp_path)
        ∧ (outcome = Exited 0 →
           run_script nd_table os [argv0; arg1; arg2] w
           = (0%Z,
              mkWorld (after_cleanup os fs tmp_path)
                      (stdout w ++ [lit "Wrote " ++ dst]) (stderr w)
                      (spawned w ++ [cmd]))).
Proof.
  intros -> -> -> -> Hf Hd Hcr Hwr.
  destruct (markdown_to_html_body nd_table text) as (body & Hm & _).
  eexists. split; [exact Hm|].
  intros outcome fs Hrun.
  pose proof (convert_to_pdf_run _ _ w bytes text _ outcome fs Hf Hd Hm Hcr (Hwr _ Hm) Hrun)
    as Hc.
  split; [exact Hc|]. split; [|split; [apply after_cleanup_gone|split]].
  - intros code -> Hcode. by destruct code.
  - intros Hout. rewrite (run_script_found argv0 arg1 arg2 w _ bytes _ Hf Hc).
    destruct outcome as [[|code|code]|]; done.
  - intros ->. by rewrite (run_script_found argv0 arg1 arg2 w _ bytes _ Hf Hc).
Qed.

End OrchestratorProperties.

(** ** The extent of the defect in the heading text *)

Section HeadingText.

Variable nd_table : N → bool.

Lemma lstrip_chars_single (c : N) (s : str) :
  lstrip_chars [c] s = snd (span (N.eqb c) s).
Proof.
  unfold lstrip_chars. rewrite <- lstrip_by_span. apply lstrip_by_ext.
  intros x. simpl. by rewrite orb_false_r, N.eqb_sym.
Qed.

(** The heading rule for a short run, in terms of the fragment. *)
Lemma heading_short_run_state (st : RenderState) (raw : str) :
  startswith (lit "#") (strip (rstrip raw)) = true →
  (count_leading 35 (strip (rstrip raw)) ≤ 3)%nat →
  ∃ (level : Z) (style : str),
    level = Z.of_nat (count_leading 35 (strip (rstrip raw)))
    ∧ HEADING_STYLES !! level = Some style
    ∧ render_line nd_table st raw
      = Some (append
                (heading_fragment level style
                   (escape (heading_text_after_run (strip (rstrip raw)))))
                (close_lists st)).
Proof.
  intros Hh Hn.
  destruct (render_line_heading nd_table st raw Hh) as (style & Hst & Hr).
  pose proof (count_leading_pos 35 _ Hh) as Hpos.
  assert (E : Z.max 1 (Z.min (Z.of_nat (count_leading 35 (strip (rstrip raw)))) 3)
              = Z.of_nat (count_leading 35 (strip (rstrip raw)))) by lia.
  rewrite E in Hr, Hst. eexists _, style. split; [reflexivity|].
  split; [exact Hst|].
  rewrite Hr. do 4 f_equal.
  unfold heading_text_after_run, slice_from.
  change (lit "#") with [35].
  rewrite lstrip_chars_single, <- count_leading_drop.
  rewrite (proj2 (Z.leb_le _ _)) by lia. by rewrite Nat2Z.id.
Qed.

(** X5: with at most three leading [#] the loop appends the element
    [<hN style="..." >text</hN>] where N is the digit of the length of the
    run, the style is the entry of that level, and the text is the text
    after the whole run, trimmed, each character replaced as [html.escape]
    does ([escape_char]). *)
Theorem heading_text_short_run (st : RenderState) (raw : str) :
  startswith (lit "#") (strip (rstrip raw)) = true →
  (count_leading 35 (strip (rstrip raw)) ≤ 3)%nat →
  ∃ (level : Z) (style : str),
    level = Z.of_nat (count_leading 35 (strip (rstrip raw)))
    ∧ (1 ≤ level ≤ 3)%Z
    ∧ HEADING_STYLES !! level = Some style
    ∧ ((level = 1%Z
        ∧ style = lit "font-size: 22px; margin-top: 28px; margin-bottom: 12px;")
       ∨ (level = 2%Z
          ∧ style = lit "font-size: 18px; margin-top: 24px; margin-bottom: 10px;")
       ∨ (level = 3%Z
          ∧ style = lit "font-size: 16px; margin-top: 20px; margin-bottom: 8px;"))
    ∧ render_line nd_table st raw
      = Some (mkRenderState
                (html_lines st ++ closing_tags st
                 ++ [lit "<h" ++ [48 + Z.to_N level] ++ lit " style=" ++ [dquote]
                     ++ style ++ [dquote] ++ lit " >"
                     ++ flat_map escape_char (heading_text_after_run (strip (rstrip raw)))
                     ++ lit "</h" ++ [48 + Z.to_N level] ++ lit ">"])
                false false).
Proof.
  intros Hh Hn.
  destruct (heading_short_run_state st raw Hh Hn) as (level & style & Hl & Hst & Hr).
  pose proof (count_leading_pos 35 _ Hh) as Hpos.
  assert (Hrange : (1 ≤ level ≤ 3)%Z) by lia.
  exists level, style.
  split; [exact Hl|]. split; [exact Hrange|]. split; [exact Hst|].
  split; [by apply heading_style_cases|].
  by rewrite Hr, append_close_lists, (heading_fragment_text level style _ Hrange),
    escape_flat_map.
Qed.


End HeadingText.

(** ** The theorems at concrete inputs *)

Lemma list_tags_balanced_witness :
  startswith (lit "- ") (strip (rstrip (lit "- a"))) = true
  ∧ numbered_pattern_match ascii_digits_only (strip (rstrip (lit "1. b")))
    = Some (mkMatch (lit "1") (lit "b"))
  ∧ ∃ st1 st2 : RenderState,
      render_lines ascii_digits_only initial_state ([] ++ [lit "- a"]) = Some st1
      ∧ render_lines ascii_digits_only initial_state ([] ++ [lit "- a"; lit "1. b"])
        = Some st2
      ∧ html_lines st2
        = html_lines st1
          ++ [lit "</ul>"; lit "<ol>";
              li_fragment (escape (group2 (mkMatch (lit "1") (lit "b"))))].
Proof.
  split; [vm_compute; reflexivity|]. split; [vm_compute; reflexivity|].
  apply (proj2 (list_tags_balanced ascii_digits_only) [] (lit "- a") (lit "1. b")
               (mkMatch (lit "1") (lit "b")));
    vm_compute; reflexivity.
Defined.

Lemma heading_level_clamped_witness :
  startswith (lit "#") (strip (rstrip (lit "#### Title"))) = true
  ∧ render_line ascii_digits_only initial_state (lit "#### Title")
    = Some (mkRenderState
              (shell_head
               ++ [lit "<h3 style=" ++ [dquote]
                   ++ lit "font-size: 16px; margin-top: 20px; margin-bottom: 8px;"
                   ++ [dquote] ++ lit " ># Title</h3>"])
              false false).
Proof.
  assert (H : startswith (lit "#") (strip (rstrip (lit "#### Title"))) = true)
    by (vm_compute; reflexivity).
  split; [exact H|].
  destruct (proj1 (heading_level_clamped ascii_digits_only) initial_state
              (lit "#### Title") H)
    as (level & style & Hl & _ & _ & _ & Hst & _ & Hr).
  rewrite Hr. vm_compute in Hl. subst level.
  vm_compute in Hst. injection Hst as <-.
  vm_compute. reflexivity.
Defined.

Lemma ordered_item_rule_witness :
  lit "12. item" ∈ splitlines (lit "12. item")
  ∧ strip (rstrip (lit "12. item")) = lit "12" ++ [46] ++ lit " " ++ lit "item"
  ∧ render_line ascii_digits_only initial_state (lit "12. item")
    = Some (mkRenderState (shell_head ++ [lit "<ol>"; lit "<li>item</li>"]) false true).
Proof.
  assert (Hin : lit "12. item" ∈ splitlines (lit "12. item")).
  { change (lit "12. item" ∈ [lit "12. item"]). apply list_elem_of_here. }
  assert (Hs : strip (rstrip (lit "12. item")) = lit "12" ++ [46] ++ lit " " ++ lit "item")
    by (vm_compute; reflexivity).
  split; [exact Hin|]. split; [exact Hs|].
  rewrite (proj1 (proj2 (ordered_item_rule ascii_digits_only initial_state
                           (lit "12. item") (lit "12. item") Hin))
                 (lit "12") (lit " ") (lit "item") Hs);
    first [ vm_compute; reflexivity | vm_compute; discriminate ].
Defined.


Lemma bare_marker_is_paragraph_witness :
  (strip (rstrip (lit "-")) = lit "-"
   ∧ render_line ascii_digits_only initial_state (lit "-")
     = Some (mkRenderState (shell_head ++ [lit "<p>-</p>"]) false false))
  ∧ (strip (rstrip (lit "-x")) = 45 :: 120 :: []
     ∧ render_line ascii_digits_only initial_state (lit "-x")
       = Some (mkRenderState (shell_head ++ [lit "<p>-x</p>"]) false false))
  ∧ (strip (rstrip (lit "1.")) = lit "1" ++ [46] ++ []
     ∧ forallb (isdecimal ascii_digits_only) (lit "1") = true
     ∧ render_line ascii_digits_only initial_state (lit "1.")
       = Some (mkRenderState (shell_head ++ [lit "<p>1.</p>"]) false false)).
Proof.
  split; [|split].
  - split; [vm_compute; reflexivity|].
    rewrite (bare_marker_is_paragraph ascii_digits_only initial_state (lit "-")).
    + vm_compute. reflexivity.
    + left. vm_compute. reflexivity.
  - split; [vm_compute; reflexivity|].
    rewrite (bare_marker_is_paragraph ascii_digits_only initial_state (lit "-x")).
    + vm_compute. reflexivity.
    + right; left. exists 120, []. split; [vm_compute; reflexivity|]. discriminate.
  - split; [vm_compute; reflexivity|]. split; [vm_compute; reflexivity|].
    rewrite (bare_marker_is_paragraph ascii_digits_only initial_state (lit "1.")).
    + vm_compute. reflexivity.
    + right; right. exists (lit "1"), [].
      split; [vm_compute; reflexivity|]. split; [vm_compute; discriminate|].
      split; [vm_compute; reflexivity|]. intros c r H. discriminate H.
Defined.


Lemma failed_write_leaves_transient_file_witness :
  files sample_world !! lit "notes.md" = Some (lit "# Title")
  ∧ temp_write_error full_disk_platform (files sample_world) (lit "/tmp/tmpa1b2c3.html")
      (utf8_encode full_disk_platform
         (join newline
            (shell_head
             ++ [lit "<h1 style=" ++ [dquote]
                 ++ lit "font-size: 22px; margin-top: 28px; margin-bottom: 12px;"
                 ++ [dquote] ++ lit " >Title</h1>"]
             ++ shell_tail)))
    = Some []
  ∧ convert_to_pdf ascii_digits_only full_disk_platform (lit "notes.md") (lit "out.pdf")
      sample_world
    = (Raised (OSError (lit "/tmp/tmpa1b2c3.html")),
       mkWorld (<[lit "/tmp/tmpa1b2c3.html" := []]> (files sample_world))
               (stdout sample_world) (stderr sample_world) (spawned sample_world))
  ∧ files (convert_to_pdf ascii_digits_only full_disk_platform (lit "notes.md")
             (lit "out.pdf") sample_world).2
    !! lit "/tmp/tmpa1b2c3.html" = Some []
  ∧ run_script ascii_digits_only full_disk_platform
      [lit "make_pdf.py"; lit "notes.md"; lit "out.pdf"] sample_world
    = (1%Z,
       mkWorld (<[lit "/tmp/tmpa1b2c3.html" := []]> (files sample_world))
               (stdout sample_world)
               (stderr sample_world ++ [lit "Traceback (most recent call last):"])
               (spawned sample_world)).
Proof.
  assert (Hf : files sample_world !! lit "notes.md" = Some (lit "# Title"))
    by (vm_compute; reflexivity).
  split; [exact Hf|]. split; [reflexivity|].
  apply (failed_write_leaves_transient_file ascii_digits_only full_disk_platform
           (lit "make_pdf.py") (lit "notes.md") (lit "out.pdf") sample_world
           (lit "# Title") [] (lit "# Title")
           (join newline
              (shell_head
               ++ [lit "<h1 style=" ++ [dquote]
                   ++ lit "font-size: 22px; margin-top: 28px; margin-bottom: 12px;"
                   ++ [dquote] ++ lit " >Title</h1>"]
               ++ shell_tail))
           (lit "notes.md") (lit "out.pdf") (lit "/tmp/tmpa1b2c3.html")
           eq_refl eq_refl eq_refl Hf eq_refl);
    first [ reflexivity | vm_compute; reflexivity ].
Defined.

Lemma temporary_file_cleanup_witness :
  files sample_world !! lit "notes.md" = Some (lit "# Title")
  ∧ utf8_decode sample_platform (lit "# Title") = Some (lit "# Title")
  ∧ temp_create_denied sample_platform (files sample_world) = false
  ∧ ∃ html : str,
      markdown_to_html ascii_digits_only (lit "# Title") = Some html
      ∧ temp_write_error sample_platform (files sample_world) (lit "/tmp/tmpa1b2c3.html")
          (utf8_encode sample_platform html) = None
      ∧ (convert_to_pdf ascii_digits_only sample_platform (lit "notes.md") (lit "out.pdf")
           sample_world).1
        = Raised (CalledProcessError 1
                    (textutil_command (lit "/tmp/tmpa1b2c3.html") (lit "out.pdf")))
      ∧ files (convert_to_pdf ascii_digits_only sample_platform (lit "notes.md")
                 (lit "out.pdf") sample_world).2
        !! lit "/tmp/tmpa1b2c3.html" = None
      ∧ (run_script ascii_digits_only sample_platform
           [lit "make_pdf.py"; lit "notes.md"; lit "out.pdf"] sample_world).1 = 1%Z.
Proof.
  assert (Hf : files sample_world !! lit "notes.md" = Some (lit "# Title"))
    by (vm_compute; reflexivity).
  split; [exact Hf|]. split; [reflexivity|]. split; [reflexivity|].
  destruct (temporary_file_cleanup ascii_digits_only sample_platform
              (lit "make_pdf.py") (lit "notes.md") (lit "out.pdf") sample_world
              (lit "# Title") (lit "# Title") (lit "notes.md") (lit "out.pdf")
              (lit "/tmp/tmpa1b2c3.html")
              (textutil_command (lit "/tmp/tmpa1b2c3.html") (lit "out.pdf"))
              eq_refl eq_refl eq_refl eq_refl Hf eq_refl eq_refl
              (λ _ _, eq_refl))
    as (html & Hm & Hall).
  exists html. split; [exact Hm|]. split; [reflexivity|].
  destruct (Hall (Exited 1) _ eq_refl) as (Hc & _ & Hgone & Hexit & _).
  rewrite Hc. cbn [fst snd files].
  split; [reflexivity|]. split; [by apply Hgone|].
  apply Hexit. discriminate.
Defined.

(** ** More on stripping *)

Lemma lstrip_by_all (p : N → bool) (s : str) :
  forallb p s = true → lstrip_by p s = [].
Proof.
  induction s as [|c s IH]; [done|]. cbn [forallb lstrip_by].
  intros [Hc Hs]%andb_prop. rewrite Hc. by apply IH.
Qed.

Lemma lstrip_by_nil (p : N → bool) (s : str) :
  lstrip_by p s = [] → forallb p s = true.
Proof.
  induction s as [|c s IH]; [done|]. cbn [forallb lstrip_by].
  destruct (p c); [exact IH|done].
Qed.

Lemma lstrip_by_app_ws (p : N → bool) (a s : str) :
  forallb p a = true → lstrip_by p (a ++ s) = lstrip_by p s.
Proof.
  induction a as [|c a IH]; [done|]. cbn [forallb app lstrip_by].
  intros [Hc Ha]%andb_prop. rewrite Hc. by apply IH.
Qed.

Lemma lstrip_by_app_text (p : N → bool) (x y : str) :
  forallb p x = false → lstrip_by p (x ++ y) = lstrip_by p x ++ y.
Proof.
  induction x as [|c x IH]; [done|]. cbn [forallb app lstrip_by].
  destruct (p c); [exact IH|done].
Qed.

Lemma forallb_rev (p : N → bool) (s : str) : forallb p (rev s) = forallb p s.
Proof.
  induction s as [|c s IH]; [done|].
  cbn [rev forallb]. rewrite forallb_app, IH. cbn [forallb].
  rewrite andb_true_r. apply andb_comm.
Qed.

Lemma rstrip_by_all (p : N → bool) (s : str) :
  forallb p s = true → rstrip_by p s = [].
Proof.
  intros H. unfold rstrip_by. rewrite lstrip_by_all; [done|]. by rewrite forallb_rev.
Qed.

Lemma rstrip_by_nil (p : N → bool) (s : str) :
  rstrip_by p s = [] → forallb p s = true.
Proof.
  unfold rstrip_by. intros H. apply (f_equal (@rev N)) in H.
  rewrite rev_involutive in H. apply lstrip_by_nil in H. by rewrite forallb_rev in H.
Qed.

Lemma rstrip_by_app_ws (p : N → bool) (s b : str) :
  forallb p b = true → rstrip_by p (s ++ b) = rstrip_by p s.
Proof.
  intros H. unfold rstrip_by. rewrite rev_app_distr, lstrip_by_app_ws; [done|].
  by rewrite forallb_rev.
Qed.

Lemma rstrip_by_app_text (p : N → bool) (a s : str) :
  forallb p s = false → rstrip_by p (a ++ s) = a ++ rstrip_by p s.
Proof.
  intros H. unfold rstrip_by.
  rewrite rev_app_distr, lstrip_by_app_text by (by rewrite forallb_rev).
  by rewrite rev_app_distr, rev_involutive.
Qed.

(** A text with no trailing white space is left as it is by [rstrip]. *)
Lemma rstrip_by_keep (p : N → bool) (a : str) (c : N) :
  p c = false → rstrip_by p (a ++ [c]) = a ++ [c].
Proof.
  intros H. unfold rstrip_by. rewrite rev_app_distr. cbn [rev app lstrip_by].
  rewrite H. change (c :: rev a) with ([c] ++ rev a).
  by rewrite rev_app_distr, rev_involutive.
Qed.

(** The stripped form is empty exactly for a line of white space only. *)
Lemma stripped_nil_iff (raw : str) :
  strip (rstrip raw) = [] ↔ forallb isspace raw = true.
Proof.
  unfold strip, strip_by, rstrip. split.
  - intros H%rstrip_by_nil.
    destruct (forallb isspace raw) eqn:E; [done|].
    destruct (forallb isspace (rstrip_by isspace raw)) eqn:E2.
    + apply (rstrip_by_all isspace) in E2.
      assert (H3 : rstrip_by isspace (rstrip_by isspace raw) = rstrip_by isspace raw).
      { destruct (nonempty_last (rstrip_by isspace raw)) as (a & c & Hac).
        - intros Hn. apply rstrip_by_nil in Hn. congruence.
        - rewrite Hac. apply rstrip_by_keep. by apply (rstrip_by_last isspace raw a c). }
      rewrite H3 in E2. apply rstrip_by_nil in E2. congruence.
    + destruct (lstrip_by isspace (rstrip_by isspace raw)) as [|c r] eqn:E3.
      * apply lstrip_by_nil in E3. congruence.
      * pose proof (lstrip_by_head _ _ _ _ E3) as Hc.
        cbn [forallb] in H. by rewrite Hc in H.
  - intros H. rewrite (rstrip_by_all _ _ H). done.
Qed.

(** White space around a line does not change its stripped form. *)
Lemma stripped_indent (indent raw trail : str) :
  forallb isspace indent = true → forallb isspace trail = true →
  strip (rstrip (indent ++ raw ++ trail)) = strip (rstrip raw).
Proof.
  intros Hi Ht. unfold strip, strip_by, rstrip.
  rewrite app_assoc, (rstrip_by_app_ws _ _ _ Ht).
  destruct (forallb isspace raw) eqn:E.
  - rewrite (rstrip_by_all isspace raw E).
    rewrite (rstrip_by_all isspace (indent ++ raw)); [done|].
    by rewrite forallb_app, Hi, E.
  - rewrite (rstrip_by_app_text _ indent raw E).
    by rewrite (lstrip_by_app_ws _ _ _ Hi).
Qed.

(** ** Further properties of the renderer *)

Lemma span_eqb_replicate (c : N) (s : str) :
  fst (span (N.eqb c) s) = replicate (count_leading c s) c.
Proof.
  unfold count_leading. induction s as [|x s IH]; [done|].
  cbn [span]. destruct (c =? x) eqn:E; [|done].
  apply N.eqb_eq in E. subst x.
  destruct (span (N.eqb c) s) as [a b]. cbn [fst length replicate] in *.
  by rewrite <- IH.
Qed.

Lemma append_last_inv (x y : str) (st1 st2 : RenderState) :
  Some (append x st1) = Some (append y st2) → x = y.
Proof.
  intros H. assert (H' : append x st1 = append y st2) by congruence.
  unfold append in H'. apply (f_equal html_lines) in H'.
  cbn [html_lines] in H'. by apply app_inj_tail in H' as [_ H'].
Qed.

Lemma li_not_blank (text : str) : li_fragment text ≠ blank_fragment.
Proof.
  intros H. assert (H2 : li_fragment text !! 1%nat = Some 108) by reflexivity.
  rewrite H in H2. by vm_compute in H2.
Qed.

Lemma heading_not_blank (level : Z) (style text : str) :
  heading_fragment level style text ≠ blank_fragment.
Proof.
  intros H.
  assert (H2 : heading_fragment level style text !! 1%nat = Some 104) by reflexivity.
  rewrite H in H2. by vm_compute in H2.
Qed.

Lemma p_escape_not_blank (text : str) : p_fragment (escape text) ≠ blank_fragment.
Proof.
  unfold p_fragment.
  change blank_fragment with (lit "<p>" ++ lit "&nbsp;" ++ lit "</p>").
  intros H. apply app_inv_head, app_inv_tail in H.
  pose proof (no_raw_special_escape text) as Hs. rewrite H in Hs.
  by vm_compute in Hs.
Qed.

Section RendererExtras.

Variable nd_table : N → bool.

Lemma render_line_stripped (st : RenderState) (raw1 raw2 : str) :
  strip (rstrip raw1) = strip (rstrip raw2) →
  render_line nd_table st raw1 = render_line nd_table st raw2.
Proof. intros H. unfold render_line. by rewrite H. Qed.

(** X7: white space before and after a line does not change how the
    line is rendered: an indented item is an item of the same list. *)
Theorem surrounding_space_ignored (st : RenderState) (indent raw trail : str) :
  forallb isspace indent = true → forallb isspace trail = true →
  render_line nd_table st (indent ++ raw ++ trail) = render_line nd_table st raw.
Proof.
  intros Hi Ht. apply render_line_stripped. by apply stripped_indent.
Qed.

(** X11: the loop appends the empty-paragraph placeholder for a line
    exactly when the line holds white space only (the empty line
    included). *)
Theorem placeholder_iff_white_line (st : RenderState) (raw : str) :
  render_line nd_table st raw = Some (append blank_fragment (close_lists st))
  ↔ forallb isspace raw = true.
Proof.
  split.
  - intros Hr. destruct (forallb isspace raw) eqn:E; [done|]. exfalso.
    assert (Hne : strip (rstrip raw) ≠ []).
    { intros H. apply stripped_nil_iff in H. congruence. }
    destruct (startswith (lit "#") (strip (rstrip raw))) eqn:Hh.
    { destruct (render_line_heading nd_table st raw Hh) as (style & _ & Hr').
      rewrite Hr' in Hr.
      by apply append_last_inv, heading_not_blank in Hr. }
    destruct (numbered_pattern_match nd_table (strip (rstrip raw))) as [m|] eqn:Hm.
    { rewrite (render_line_ordered nd_table st raw m Hh Hm) in Hr.
      by apply append_last_inv, li_not_blank in Hr. }
    destruct (startswith (lit "- ") (strip (rstrip raw))) eqn:Hu.
    { rewrite (render_line_unordered nd_table st raw Hh Hm Hu) in Hr.
      by apply append_last_inv, li_not_blank in Hr. }
    rewrite (render_line_paragraph nd_table st raw Hne Hh Hm Hu) in Hr.
    by apply append_last_inv, p_escape_not_blank in Hr.
  - intros H. apply render_line_blank. by apply stripped_nil_iff.
Qed.

(** The text of an unordered item: the rest after the marker, without
    its leading white space. *)
Lemma dash_item_text (raw rest : str) :
  strip (rstrip raw) = lit "- " ++ rest →
  strip (slice_from 2 (strip (rstrip raw))) = lstrip_by isspace rest.
Proof.
  intros Hs. rewrite Hs.
  change (slice_from 2 (lit "- " ++ rest)) with rest.
  unfold strip, strip_by.
  destruct (lstrip_by isspace rest) as [|c r] eqn:E; [done|].
  destruct (nonempty_last (c :: r)) as (a & d & Had); [done|].
  rewrite Had. apply rstrip_by_keep.
  pose proof (span_app isspace rest) as Happ.
  rewrite <- lstrip_by_span, E, Had in Happ.
  rewrite <- Happ, !app_assoc in Hs. by apply strip_last in Hs.
Qed.

Lemma render_line_dash (st : RenderState) (raw rest : str) :
  strip (rstrip raw) = lit "- " ++ rest →
  render_line nd_table st raw
  = Some (append (li_fragment (escape (lstrip_by isspace rest))) (enter_ul st)).
Proof.
  intros Hs.
  assert (Hu : startswith (lit "- ") (strip (rstrip raw)) = true).
  { rewrite Hs. change (lit "- ") with [45; 32]. reflexivity. }
  destruct (dash_item_tests nd_table _ Hu) as [Hh Hm].
  rewrite (render_line_unordered nd_table st raw Hh Hm Hu).
  by rewrite (dash_item_text raw rest Hs).
Qed.

Lemma enter_ol_open (st : RenderState) : in_ol (enter_ol st) = true.
Proof. unfold enter_ol. by destruct (in_ol st) eqn:E. Qed.

Lemma enter_ul_open (st : RenderState) : in_ul (enter_ul st) = true.
Proof. unfold enter_ul. by destruct (in_ul st) eqn:E. Qed.

(** X2: a line whose stripped form is a dash, a space and a rest
    appends the line [<li>text</li>], where the text is the rest without
    its leading white space, each character replaced as [html.escape] does
    ([escape_char]); when the unordered list is not open
    the closing tag of an open ordered list and [<ul>] come first. *)
Theorem unordered_item_rule (st : RenderState) (raw rest : str) :
  strip (rstrip raw) = lit "- " ++ rest →
  render_line nd_table st raw
  = Some (if in_ul st
          then mkRenderState
                 (html_lines st
                  ++ [lit "<li>" ++ flat_map escape_char (lstrip_by isspace rest) ++ lit "</li>"])
                 true (in_ol st)
          else mkRenderState
                 (html_lines st ++ closing_tags st
                  ++ [lit "<ul>";
                      lit "<li>" ++ flat_map escape_char (lstrip_by isspace rest) ++ lit "</li>"])
                 true false).
Proof.
  intros Hs.
  by rewrite (render_line_dash st raw rest Hs), append_enter_ul, escape_flat_map.
Qed.

(** X3: two ordered items in a row are items of one list: the second
    appends its item and nothing else; the same holds for two unordered
    items. *)
Theorem consecutive_items_share_list :
  (∀ (st : RenderState) (raw1 raw2 : str) (m1 m2 : Match),
     numbered_pattern_match nd_table (strip (rstrip raw1)) = Some m1 →
     numbered_pattern_match nd_table (strip (rstrip raw2)) = Some m2 →
     render_lines nd_table st [raw1; raw2]
     = Some (append (li_fragment (escape (group2 m2)))
               (append (li_fragment (escape (group2 m1))) (enter_ol st))))
  ∧ (∀ (st : RenderState) (raw1 raw2 rest1 rest2 : str),
       strip (rstrip raw1) = lit "- " ++ rest1 →
       strip (rstrip raw2) = lit "- " ++ rest2 →
       render_lines nd_table st [raw1; raw2]
       = Some (append (li_fragment (escape (lstrip_by isspace rest2)))
                 (append (li_fragment (escape (lstrip_by isspace rest1))) (enter_ul st)))).
Proof.
  split.
  - intros st raw1 raw2 m1 m2 H1 H2. cbn [render_lines].
    rewrite (render_line_ordered nd_table st raw1 m1
               (numbered_match_not_heading nd_table _ m1 H1) H1).
    cbn [mbind option_bind].
    rewrite (render_line_ordered nd_table _ raw2 m2
               (numbered_match_not_heading nd_table _ m2 H2) H2).
    cbn [mbind option_bind]. do 2 f_equal.
    unfold enter_ol at 1. cbn [append in_ol]. by rewrite enter_ol_open.
  - intros st raw1 raw2 rest1 rest2 H1 H2. cbn [render_lines].
    rewrite (render_line_dash st raw1 rest1 H1). cbn [mbind option_bind].
    rewrite (render_line_dash _ raw2 rest2 H2). cbn [mbind option_bind].
    do 2 f_equal.
    unfold enter_ul at 1. cbn [append in_ul]. by rewrite enter_ul_open.
Qed.

(** X4: after a line is rendered from a state of the loop, the ordered
    list is open exactly when the line matched the pattern, and the
    unordered list is open exactly when the line starts with a dash and a
    space: any other line leaves no list open. *)
Theorem open_list_after_line (st st' : RenderState) (raw : str) :
  well_formed st →
  render_line nd_table st raw = Some st' →
  (in_ol st' = true ↔ is_Some (numbered_pattern_match nd_table (strip (rstrip raw))))
  ∧ (in_ul st' = true ↔ startswith (lit "- ") (strip (rstrip raw)) = true).
Proof.
  intros Hwf Hr. destruct (close_lists_flags st) as [Hcu Hco].
  assert (Hnone : ∀ x, st' = append x (close_lists st) →
            numbered_pattern_match nd_table (strip (rstrip raw)) = None →
            startswith (lit "- ") (strip (rstrip raw)) = false →
            (in_ol st' = true ↔ is_Some (numbered_pattern_match nd_table (strip (rstrip raw))))
            ∧ (in_ul st' = true ↔ startswith (lit "- ") (strip (rstrip raw)) = true)).
  { intros x -> Hm Hu. cbn [append in_ul in_ol]. rewrite Hcu, Hco, Hm, Hu.
    split; split; try done; try (by intros [? ?]). }
  destruct (strip (rstrip raw)) as [|h t] eqn:Hs.
  { rewrite (render_line_blank nd_table st raw Hs) in Hr. injection Hr as <-.
    by apply (Hnone blank_fragment). }
  rewrite <- Hs in *.
  destruct (startswith (lit "#") (strip (rstrip raw))) eqn:Hh.
  { destruct (render_line_heading nd_table st raw Hh) as (style & _ & Hr').
    rewrite Hr' in Hr. injection Hr as <-.
    eapply Hnone; [done| |].
    - destruct (numbered_pattern_match nd_table (strip (rstrip raw))) as [m|] eqn:Hm;
        [|done].
      apply numbered_match_not_heading in Hm. congruence.
    - destruct (startswith (lit "- ") (strip (rstrip raw))) eqn:Hu; [|done].
      apply (dash_item_tests nd_table) in Hu as [Hu _]. congruence. }
  destruct (numbered_pattern_match nd_table (strip (rstrip raw))) as [m|] eqn:Hm.
  { rewrite (render_line_ordered nd_table st raw m Hh Hm) in Hr. injection Hr as <-.
    destruct (well_formed_enter_ol st Hwf) as (_ & Hu' & Ho').
    cbn [append in_ul in_ol]. rewrite Hu', Ho'.
    destruct (startswith (lit "- ") (strip (rstrip raw))) eqn:Hu.
    - apply (dash_item_tests nd_table) in Hu as [_ Hu]. congruence.
    - split; split; try done; try (by eexists). }
  destruct (startswith (lit "- ") (strip (rstrip raw))) eqn:Hu.
  { rewrite (render_line_unordered nd_table st raw Hh Hm Hu) in Hr. injection Hr as <-.
    destruct (well_formed_enter_ul st Hwf) as (_ & Hu' & Ho').
    cbn [append in_ul in_ol]. rewrite Hu', Ho'.
    split; split; try done; try (by intros [? ?]). }
  rewrite (render_line_paragraph nd_table st raw) in Hr; try done.
  - injection Hr as <-. by eapply Hnone.
  - by rewrite Hs.
Qed.

(** The heading rule for a long run, in terms of the fragment. *)
Lemma heading_long_run_state (st : RenderState) (raw : str) :
  startswith (lit "#") (strip (rstrip raw)) = true →
  (3 ≤ count_leading 35 (strip (rstrip raw)))%nat →
  render_line nd_table st raw
  = Some (append
            (heading_fragment 3
               (lit "font-size: 16px; margin-top: 20px; margin-bottom: 8px;")
               (escape (strip (replicate (count_leading 35 (strip (rstrip raw)) - 3) 35
                               ++ lstrip_chars (lit "#") (strip (rstrip raw))))))
            (close_lists st)).
Proof.
  intros Hh Hn.
  destruct (render_line_heading nd_table st raw Hh) as (style & Hst & Hr).
  assert (E : Z.max 1 (Z.min (Z.of_nat (count_leading 35 (strip (rstrip raw)))) 3) = 3%Z)
    by lia.
  rewrite E in Hr, Hst. vm_compute in Hst. injection Hst as <-.
  rewrite Hr. do 5 f_equal.
  change (slice_from 3 (strip (rstrip raw))) with (drop 3 (strip (rstrip raw))).
  change (lit "#") with [35]. rewrite lstrip_chars_single.
  rewrite <- (span_app (N.eqb 35) (strip (rstrip raw))) at 1.
  rewrite span_eqb_replicate, drop_app_le by (by rewrite length_replicate).
  by rewrite drop_replicate.
Qed.

(** X6: with three or more leading [#] the loop appends the element
    [<h3 style="..." >text</h3>] with the style of level 3, and the text
    is cut after the third [#]: the surplus ones stay in front of what
    follows the run; each character is replaced as [html.escape] does
    ([escape_char]). *)
Theorem heading_text_long_run (st : RenderState) (raw : str) :
  startswith (lit "#") (strip (rstrip raw)) = true →
  (3 ≤ count_leading 35 (strip (rstrip raw)))%nat →
  render_line nd_table st raw
  = Some (mkRenderState
            (html_lines st ++ closing_tags st
             ++ [lit "<h3 style=" ++ [dquote]
                 ++ lit "font-size: 16px; margin-top: 20px; margin-bottom: 8px;"
                 ++ [dquote] ++ lit " >"
                 ++ flat_map escape_char (strip (replicate (count_leading 35 (strip (rstrip raw)) - 3) 35
                                   ++ lstrip_chars (lit "#") (strip (rstrip raw))))
                 ++ lit "</h3>"])
            false false).
Proof.
  intros Hh Hn.
  rewrite (heading_long_run_state st raw Hh Hn), append_close_lists.
  by rewrite heading_fragment_text, escape_flat_map by lia.
Qed.


End RendererExtras.

(** ** The lines of the output *)

Lemma no_break_app (a b : str) : no_break (a ++ b) = no_break a && no_break b.
Proof. apply forallb_app. Qed.

Lemma no_break_sub (a b : str) :
  (∀ c, c ∈ a → c ∈ b) → no_break b = true → no_break a = true.
Proof.
  unfold no_break. rewrite !forallb_forall. intros Hsub Hb c Hc.
  apply Hb. rewrite <- list_elem_of_In in *. by apply Hsub.
Qed.

Lemma no_break_escape (text : str) : no_break text = true → no_break (escape text) = true.
Proof.
  rewrite escape_flat_map. induction text as [|c text IH]; [done|].
  change (no_break (c :: text)) with (negb (is_linebreak c) && no_break text).
  intros [Hc Ht]%andb_prop. cbn [flat_map]. rewrite no_break_app, (IH Ht), andb_true_r.
  unfold escape_char.
  repeat (match goal with
          | |- context [if ?b then _ else _] => destruct b
          end); try reflexivity.
  unfold no_break. cbn [forallb]. by rewrite Hc.
Qed.

(** The lines of [splitlines] hold no line boundary at all. *)
Lemma splitlines_from_no_break (n : nat) : ∀ (s cur : str),
  (length s ≤ n)%nat → no_break cur = true →
  Forall (λ l : str, no_break l = true) (splitlines_from cur s).
Proof.
  induction n as [|n IH]; intros s cur Hn Hcur;
    (assert (Hrev : no_break (rev cur) = true)
       by (unfold no_break; by rewrite forallb_rev)).
  - destruct s; [|simpl in Hn; lia]. cbn [splitlines_from].
    destruct cur; by repeat constructor.
  - destruct s as [|c s]; cbn [splitlines_from].
    { destruct cur; by repeat constructor. }
    cbn [length] in Hn.
    destruct (c =? 13) eqn:Ecr.
    + destruct s as [|d s]; [by repeat constructor|].
      cbn [length] in Hn.
      destruct (d =? 10); constructor; try done; apply IH; simpl; try done; lia.
    + destruct (is_linebreak c) eqn:Elb.
      * constructor; [done|]. apply IH; [lia|done].
      * apply IH; [lia|].
        change (no_break (c :: cur)) with (negb (is_linebreak c) && no_break cur).
        by rewrite Elb, Hcur.
Qed.

Lemma splitlines_from_line (l rest : str) : ∀ cur : str,
  no_break l = true →
  splitlines_from cur (l ++ 0x0A :: rest) = (rev cur ++ l) :: splitlines_from [] rest.
Proof.
  induction l as [|c l IH]; intros cur Hl.
  - cbn [app]. rewrite app_nil_r. reflexivity.
  - change (no_break (c :: l)) with (negb (is_linebreak c) && no_break l) in Hl.
    apply andb_prop in Hl as [Hc Hl]. apply negb_true_iff in Hc.
    cbn [app splitlines_from].
    destruct (c =? 13) eqn:E.
    { apply N.eqb_eq in E. subst c. by vm_compute in Hc. }
    rewrite Hc, (IH (c :: cur) Hl). cbn [rev]. by rewrite <- app_assoc.
Qed.

Lemma splitlines_from_last (x : str) : ∀ cur : str,
  no_break x = true → x ≠ [] → splitlines_from cur x = [rev cur ++ x].
Proof.
  induction x as [|c x IH]; intros cur Hx Hne; [done|].
  change (no_break (c :: x)) with (negb (is_linebreak c) && no_break x) in Hx.
  apply andb_prop in Hx as [Hc Hx]. apply negb_true_iff in Hc.
  cbn [splitlines_from].
  destruct (c =? 13) eqn:E.
  { apply N.eqb_eq in E. subst c. by vm_compute in Hc. }
  rewrite Hc. destruct x as [|d x].
  - reflexivity.
  - rewrite (IH (c :: cur) Hx) by done. cbn [rev]. by rewrite <- app_assoc.
Qed.

(** Joining lines with line feeds and splitting again gives the lines
    back, when no line holds a line boundary and the last one is not
    empty. *)
Lemma splitlines_join (lines : list str) (x : str) :
  Forall (λ l : str, no_break l = true) lines → no_break x = true → x ≠ [] →
  splitlines (join newline (lines ++ [x])) = lines ++ [x].
Proof.
  intros HF Hx Hne. rewrite join_unlines. unfold splitlines.
  induction HF as [|l lines Hl HF IH].
  - by apply (splitlines_from_last x []).
  - change (unlines (l :: lines) ++ x) with (((l ++ newline) ++ unlines lines) ++ x).
    rewrite <- !app_assoc. change (newline ++ unlines lines ++ x)
      with (0x0A :: (unlines lines ++ x)).
    rewrite (splitlines_from_line l _ [] Hl), IH. reflexivity.
Qed.

Lemma no_break_strip (s : str) : no_break s = true → no_break (strip s) = true.
Proof.
  apply no_break_sub. unfold strip, strip_by.
  by intros c H%rstrip_by_sublist%lstrip_by_sublist.
Qed.

Lemma no_break_stripped (raw : str) :
  no_break raw = true → no_break (strip (rstrip raw)) = true.
Proof. apply no_break_sub, stripped_sublist. Qed.

Lemma no_break_slice_from (i : Z) (s : str) :
  no_break s = true → no_break (slice_from i s) = true.
Proof.
  apply no_break_sub. unfold slice_from.
  destruct (0 <=? i)%Z; apply subseteq_drop.
Qed.

Lemma no_break_li (text : str) : no_break text = true → no_break (li_fragment text) = true.
Proof. intros H. unfold li_fragment. by rewrite !no_break_app, H. Qed.

Lemma no_break_p (text : str) : no_break text = true → no_break (p_fragment text) = true.
Proof. intros H. unfold p_fragment. by rewrite !no_break_app, H. Qed.

Lemma no_break_heading (n : Z) (style text : str) :
  HEADING_STYLES !! Z.max 1 (Z.min n 3) = Some style →
  no_break text = true →
  no_break (heading_fragment (Z.max 1 (Z.min n 3)) style text) = true.
Proof.
  intros Hs Ht.
  assert (H : (Z.max 1 (Z.min n 3) = 1 ∨ Z.max 1 (Z.min n 3) = 2
               ∨ Z.max 1 (Z.min n 3) = 3)%Z) by lia.
  unfold heading_fragment.
  destruct H as [H | [H | H]]; rewrite H in *; vm_compute in Hs; injection Hs as <-;
    by rewrite !no_break_app, Ht.
Qed.

Lemma no_break_lines_app (lines : list str) (x : str) :
  Forall (λ l : str, no_break l = true) lines → no_break x = true →
  Forall (λ l : str, no_break l = true) (lines ++ [x]).
Proof. intros HF Hx. apply Forall_app. split; [done|]. by constructor. Qed.

Lemma no_break_close_lists (st : RenderState) :
  Forall (λ l : str, no_break l = true) (html_lines st) →
  Forall (λ l : str, no_break l = true) (html_lines (close_lists st)).
Proof.
  intros HF. rewrite close_lists_eq. cbn [html_lines]. unfold closing_tags.
  apply Forall_app. split; [done|].
  destruct (in_ul st), (in_ol st); by repeat constructor.
Qed.

Lemma no_break_enter_ol (st : RenderState) :
  Forall (λ l : str, no_break l = true) (html_lines st) →
  Forall (λ l : str, no_break l = true) (html_lines (enter_ol st)).
Proof.
  intros HF. unfold enter_ol. destruct (in_ol st); [done|].
  cbn [set_in_ol append html_lines].
  by apply no_break_lines_app; [apply no_break_close_lists|].
Qed.

Lemma no_break_enter_ul (st : RenderState) :
  Forall (λ l : str, no_break l = true) (html_lines st) →
  Forall (λ l : str, no_break l = true) (html_lines (enter_ul st)).
Proof.
  intros HF. unfold enter_ul. destruct (in_ul st); [done|].
  cbn [set_in_ul append html_lines].
  by apply no_break_lines_app; [apply no_break_close_lists|].
Qed.

Section OutputLines.

Variable nd_table : N → bool.

Lemma no_break_group2 (s : str) (m : Match) :
  numbered_pattern_match nd_table s = Some m →
  no_break s = true → no_break (group2 m) = true.
Proof.
  intros Hm. apply no_break_sub. intros c Hc.
  destruct (numbered_match_inv nd_table s m Hm) as (ws & tail & -> & _ & _ & _ & _ & Hg).
  rewrite Hg in Hc.
  rewrite !elem_of_app. do 3 right.
  rewrite <- (span_app (λ c, negb (c =? 0x0A)) tail), elem_of_app. by left.
Qed.

(** The loop appends lines without line boundaries, given such a line. *)
Lemma render_line_no_break (st st' : RenderState) (raw : str) :
  no_break raw = true →
  Forall (λ l : str, no_break l = true) (html_lines st) →
  render_line nd_table st raw = Some st' →
  Forall (λ l : str, no_break l = true) (html_lines st').
Proof.
  intros Hraw HF Hr. pose proof (no_break_stripped raw Hraw) as Hs.
  destruct (strip (rstrip raw)) as [|h t] eqn:Es.
  { rewrite (render_line_blank nd_table st raw Es) in Hr. injection Hr as <-.
    by apply no_break_lines_app; [apply no_break_close_lists|]. }
  rewrite <- Es in *.
  destruct (startswith (lit "#") (strip (rstrip raw))) eqn:Hh.
  { destruct (render_line_heading nd_table st raw Hh) as (style & Hst & Hr').
    rewrite Hr' in Hr. injection Hr as <-.
    apply no_break_lines_app; [by apply no_break_close_lists|].
    apply no_break_heading; [done|].
    by apply no_break_escape, no_break_strip, no_break_slice_from. }
  destruct (numbered_pattern_match nd_table (strip (rstrip raw))) as [m|] eqn:Hm.
  { rewrite (render_line_ordered nd_table st raw m Hh Hm) in Hr. injection Hr as <-.
    apply no_break_lines_app; [by apply no_break_enter_ol|].
    apply no_break_li, no_break_escape. by apply (no_break_group2 _ m Hm). }
  destruct (startswith (lit "- ") (strip (rstrip raw))) eqn:Hu.
  { rewrite (render_line_unordered nd_table st raw Hh Hm Hu) in Hr. injection Hr as <-.
    apply no_break_lines_app; [by apply no_break_enter_ul|].
    by apply no_break_li, no_break_escape, no_break_strip, no_break_slice_from. }
  rewrite (render_line_paragraph nd_table st raw) in Hr; try done; [|by rewrite Es].
  injection Hr as <-.
  apply no_break_lines_app; [by apply no_break_close_lists|].
  by apply no_break_p, no_break_escape.
Qed.

Lemma render_lines_no_break (lines : list str) : ∀ st st' : RenderState,
  Forall (λ l : str, no_break l = true) lines →
  Forall (λ l : str, no_break l = true) (html_lines st) →
  render_lines nd_table st lines = Some st' →
  Forall (λ l : str, no_break l = true) (html_lines st').
Proof.
  induction lines as [|l lines IH]; intros st st' HL HF Hr.
  - by injection Hr as <-.
  - apply Forall_cons in HL as [Hl HL]. cbn [render_lines] in Hr.
    destruct (render_line nd_table st l) as [st1|] eqn:E1; [|done].
    cbn [mbind option_bind] in Hr.
    apply (IH st1 st' HL); [|done].
    by apply (render_line_no_break st st1 l).
Qed.

(** X10: every fragment sits on a line of its own: splitting the output
    of [markdown_to_html] into lines gives back the lines of the shell
    head, the fragments of the body and the two lines of the shell tail. *)
Theorem output_one_fragment_per_line (markdown : str) :
  ∃ body : list str,
    markdown_to_html nd_table markdown
    = Some (join newline (shell_head ++ body ++ shell_tail))
    ∧ Forall body_fragment body
    ∧ splitlines (join newline (shell_head ++ body ++ shell_tail))
      = shell_head ++ body ++ shell_tail.
Proof.
  destruct (render_lines_well_formed nd_table (splitlines markdown) initial_state
              well_formed_initial) as (st & Hr & Hwf).
  pose proof (well_formed_close_lists st Hwf) as (_ & _ & body & Hb & HB).
  assert (HF : Forall (λ l : str, no_break l = true) (html_lines (close_lists st))).
  { apply no_break_close_lists.
    apply (render_lines_no_break (splitlines markdown) initial_state st); [| |done].
    - apply (splitlines_from_no_break (length markdown)); [lia|done].
    - unfold initial_state, shell_head. cbn [html_lines].
      repeat (constructor; [by vm_compute|]). constructor. }
  exists body. unfold markdown_to_html. rewrite Hr. cbn [mbind option_bind].
  rewrite Hb, <- app_assoc. split; [done|]. split; [done|].
  rewrite Hb in HF. unfold shell_tail.
  replace (shell_head ++ body ++ [lit "</body>"; lit "</html>"])
    with (((shell_head ++ body) ++ [lit "</body>"]) ++ [lit "</html>"])
    by (by rewrite <- !app_assoc).
  apply splitlines_join; [|by vm_compute|by vm_compute].
  by apply no_break_lines_app.
Qed.

End OutputLines.

(** ** Further properties of the orchestrator *)

Section OrchestratorExtras.

Variable nd_table : N → bool.
Variable os : Platform.

(** X1: with any number of arguments other than two after the script
    name, the script writes the usage line to the error stream and ends
    with status 1; it reads no file, creates none and runs no command. *)
Theorem usage_error_reported (argv : list str) (w : World) :
  length argv ≠ 3%nat →
  run_script nd_table os argv w
  = (1%Z,
     mkWorld (files w) (stdout w)
             (stderr w ++ [lit "Usage: make_pdf.py <input.md> <output.pdf>"])
             (spawned w)).
Proof.
  intros H. destruct argv as [|a0 [|a1 [|a2 [|a3 rest]]]]; try reflexivity.
  by cbn [length] in H.
Qed.

(** X8: when the source cannot be read, [convert_to_pdf] raises before
    anything else happens: [FileNotFoundError] for a path that is not
    there, [UnicodeDecodeError] for bytes that are not UTF-8.  The world is
    unchanged (no transient file, no command), and the script ends with
    status 1 after the report of the uncaught exception. *)
Theorem unreadable_source_raises (argv0 arg1 arg2 : str) (w : World) :
  (∀ src dst : str,
     files w !! src = None →
     convert_to_pdf nd_table os src dst w = (Raised (FileNotFoundError src), w))
  ∧ (∀ bytes : list N,
       files w !! path_str os arg1 = Some bytes →
       utf8_decode os bytes = None →
       convert_to_pdf nd_table os (path_str os arg1) (path_str os arg2) w
       = (Raised UnicodeDecodeError, w)
       ∧ run_script nd_table os [argv0; arg1; arg2] w
         = (1%Z,
            mkWorld (files w) (stdout w)
                    (stderr w ++ [lit "Traceback (most recent call last):"])
                    (spawned w))).
Proof.
  split.
  - intros src dst H. unfold convert_to_pdf, io_bind, read_text. by rewrite H.
  - intros bytes Hf Hd.
    assert (Hc : convert_to_pdf nd_table os (path_str os arg1) (path_str os arg2) w
                 = (Raised UnicodeDecodeError, w)).
    { unfold convert_to_pdf, io_bind, read_text. by rewrite Hf, Hd. }
    split; [exact Hc|].
    by rewrite (run_script_found nd_table os argv0 arg1 arg2 w w bytes _ Hf Hc).
Qed.


End OrchestratorExtras.

(** ** Line endings, and the growth of the output *)

Lemma splitlines_from_crlf_line (l rest : str) : ∀ cur : str,
  no_break l = true →
  splitlines_from cur (l ++ crlf ++ rest) = (rev cur ++ l) :: splitlines_from [] rest.
Proof.
  induction l as [|c l IH]; intros cur Hl.
  - cbn [app]. rewrite app_nil_r. reflexivity.
  - change (no_break (c :: l)) with (negb (is_linebreak c) && no_break l) in Hl.
    apply andb_prop in Hl as [Hc Hl]. apply negb_true_iff in Hc.
    change ((c :: l) ++ crlf ++ rest) with (c :: (l ++ crlf ++ rest)).
    cbn [splitlines_from].
    destruct (c =? 13) eqn:E.
    { apply N.eqb_eq in E. subst c. by vm_compute in Hc. }
    rewrite Hc, (IH (c :: cur) Hl). cbn [rev]. by rewrite <- app_assoc.
Qed.

Lemma join_app_last (sep : str) (lines : list str) (x : str) :
  join sep (lines ++ [x]) = flat_map (λ l, l ++ sep) lines ++ x.
Proof.
  induction lines as [|l lines IH]; [done|].
  cbn [flat_map]. rewrite <- !app_assoc, <- IH. cbn [app join].
  destruct (lines ++ [x]) eqn:E; [|done].
  apply app_eq_nil in E as [_ ?]. done.
Qed.

Lemma splitlines_join_crlf (lines : list str) (x : str) :
  Forall (λ l : str, no_break l = true) lines → no_break x = true → x ≠ [] →
  splitlines (join crlf (lines ++ [x])) = lines ++ [x].
Proof.
  intros HF Hx Hne. rewrite join_app_last. unfold splitlines.
  induction HF as [|l lines Hl HF IH].
  - by apply (splitlines_from_last x []).
  - cbn [flat_map]. rewrite <- !app_assoc.
    rewrite (splitlines_from_crlf_line l _ [] Hl), IH. reflexivity.
Qed.

Lemma splitlines_join_final_newline (lines : list str) (x : str) :
  Forall (λ l : str, no_break l = true) lines → no_break x = true →
  splitlines (join newline (lines ++ [x]) ++ newline) = lines ++ [x].
Proof.
  intros HF Hx. rewrite join_unlines. unfold splitlines.
  induction HF as [|l lines Hl HF IH].
  - change ((unlines [] ++ x) ++ newline) with (x ++ 0x0A :: []).
    by rewrite (splitlines_from_line x [] [] Hx).
  - change (unlines (l :: lines)) with ((l ++ newline) ++ unlines lines).
    rewrite <- !app_assoc.
    change (newline ++ unlines lines ++ x ++ newline)
      with (0x0A :: (unlines lines ++ x ++ newline)).
    rewrite (splitlines_from_line l _ [] Hl). rewrite <- app_assoc in IH.
    by rewrite IH.
Qed.

Section Growth.

Variable nd_table : N → bool.

(** X12: the renderer does not depend on how the lines of the text are
    ended: ending them with CR LF instead of LF, or adding a final line
    feed, gives the same output. *)
Theorem line_endings_equivalent (lines : list str) (x : str) :
  Forall (λ l : str, no_break l = true) lines → no_break x = true → x ≠ [] →
  markdown_to_html nd_table (join crlf (lines ++ [x]))
  = markdown_to_html nd_table (join newline (lines ++ [x]))
  ∧ markdown_to_html nd_table (join newline (lines ++ [x]) ++ newline)
    = markdown_to_html nd_table (join newline (lines ++ [x])).
Proof.
  intros HF Hx Hne. unfold markdown_to_html.
  by rewrite (splitlines_join_crlf lines x HF Hx Hne),
             (splitlines_join lines x HF Hx Hne),
             (splitlines_join_final_newline lines x HF Hx).
Qed.

(** X13: in every state the loop reaches from the start, at most one of
    the two flags is set, and the lines built so far start with the head
    of the shell. *)
Theorem flags_mutually_exclusive (lines : list str) :
  ∃ (st : RenderState) (body : list str),
    render_lines nd_table initial_state lines = Some st
    ∧ in_ul st && in_ol st = false
    ∧ html_lines st = shell_head ++ body.
Proof.
  destruct (render_lines_well_formed nd_table lines initial_state well_formed_initial)
    as (st & Hr & Hf & _ & body & Hb & _).
  by exists st, body.
Qed.

Lemma closing_tags_length (st : RenderState) :
  in_ul st && in_ol st = false → (length (closing_tags st) ≤ 1)%nat.
Proof.
  unfold closing_tags. destruct (in_ul st), (in_ol st); cbn; intros; try done; lia.
Qed.

(** X14: a turn of the loop only appends: the lines built before stay as
    they are, and from a state of the loop between one and three lines
    are added (a closing tag, an opening tag, the fragment of the line). *)
Theorem render_line_appends (st st' : RenderState) (raw : str) :
  well_formed st →
  render_line nd_table st raw = Some st' →
  ∃ added : list str,
    html_lines st' = html_lines st ++ added
    ∧ (1 ≤ length added ≤ 3)%nat.
Proof.
  intros Hwf Hr. pose proof Hwf as (Hf & _).
  pose proof (closing_tags_length st Hf) as Hlen.
  destruct (render_line_cases nd_table st raw) as (st'' & Hr' & Hc).
  rewrite Hr in Hr'. injection Hr' as <-.
  assert (Hclose : ∀ x, html_lines (append x (close_lists st))
                        = html_lines st ++ (closing_tags st ++ [x])).
  { intros x. rewrite close_lists_eq. cbn [append html_lines]. by rewrite <- app_assoc. }
  destruct Hc as [-> | [(level & style & text & Hst & ->)
                       | [(text & ->) | [(text & ->) | (text & ->)]]]].
  - eexists. split; [apply Hclose|]. rewrite length_app. cbn [length]. lia.
  - eexists. split; [apply Hclose|]. rewrite length_app. cbn [length]. lia.
  - unfold enter_ol. destruct (in_ol st).
    + exists [li_fragment (escape text)]. split; [done|]. cbn [length]. lia.
    + exists (closing_tags st ++ [lit "<ol>"; li_fragment (escape text)]).
      split.
      * rewrite close_lists_eq. cbn [append set_in_ol html_lines].
        by rewrite <- !app_assoc.
      * rewrite length_app. cbn [length]. lia.
  - unfold enter_ul. destruct (in_ul st).
    + exists [li_fragment (escape text)]. split; [done|]. cbn [length]. lia.
    + exists (closing_tags st ++ [lit "<ul>"; li_fragment (escape text)]).
      split.
      * rewrite close_lists_eq. cbn [append set_in_ul html_lines].
        by rewrite <- !app_assoc.
      * rewrite length_app. cbn [length]. lia.
  - eexists. split; [apply Hclose|]. rewrite length_app. cbn [length]. lia.
Qed.

End Growth.

(** ** The further properties at concrete inputs *)

Lemma usage_error_reported_witness :
  length [lit "make_pdf.py"; lit "notes.md"] ≠ 3%nat
  ∧ run_script ascii_digits_only sample_platform [lit "make_pdf.py"; lit "notes.md"]
      sample_world
    = (1%Z,
       mkWorld (files sample_world) (stdout sample_world)
               (stderr sample_world ++ [lit "Usage: make_pdf.py <input.md> <output.pdf>"])
               (spawned sample_world)).
Proof.
  assert (H : length [lit "make_pdf.py"; lit "notes.md"] ≠ 3%nat) by (cbn; lia).
  split; [exact H|].
  apply (usage_error_reported ascii_digits_only sample_platform _ sample_world H).
Defined.

Lemma unordered_item_rule_witness :
  strip (rstrip (lit "  -   milk ")) = lit "- " ++ lit "  milk"
  ∧ render_line ascii_digits_only initial_state (lit "  -   milk ")
    = Some (mkRenderState (shell_head ++ [lit "<ul>"; lit "<li>milk</li>"]) true false).
Proof.
  assert (H : strip (rstrip (lit "  -   milk ")) = lit "- " ++ lit "  milk")
    by (vm_compute; reflexivity).
  split; [exact H|].
  rewrite (unordered_item_rule ascii_digits_only initial_state _ _ H).
  vm_compute. reflexivity.
Defined.

Lemma consecutive_items_share_list_witness :
  numbered_pattern_match ascii_digits_only (strip (rstrip (lit "1. a")))
  = Some (mkMatch (lit "1") (lit "a"))
  ∧ numbered_pattern_match ascii_digits_only (strip (rstrip (lit "7. b")))
    = Some (mkMatch (lit "7") (lit "b"))
  ∧ render_lines ascii_digits_only initial_state [lit "1. a"; lit "7. b"]
    = Some (append (li_fragment (escape (group2 (mkMatch (lit "7") (lit "b")))))
              (append (li_fragment (escape (group2 (mkMatch (lit "1") (lit "a")))))
                 (enter_ol initial_state))).
Proof.
  assert (H1 : numbered_pattern_match ascii_digits_only (strip (rstrip (lit "1. a")))
               = Some (mkMatch (lit "1") (lit "a"))) by (vm_compute; reflexivity).
  assert (H2 : numbered_pattern_match ascii_digits_only (strip (rstrip (lit "7. b")))
               = Some (mkMatch (lit "7") (lit "b"))) by (vm_compute; reflexivity).
  split; [exact H1|]. split; [exact H2|].
  apply (proj1 (consecutive_items_share_list ascii_digits_only) initial_state _ _ _ _ H1 H2).
Defined.

Lemma open_list_after_line_witness :
  well_formed initial_state
  ∧ render_line ascii_digits_only initial_state (lit "- a")
    = Some (append (li_fragment (escape (lit "a"))) (enter_ul initial_state))
  ∧ (in_ol (append (li_fragment (escape (lit "a"))) (enter_ul initial_state)) = true
     ↔ is_Some (numbered_pattern_match ascii_digits_only (strip (rstrip (lit "- a")))))
  ∧ (in_ul (append (li_fragment (escape (lit "a"))) (enter_ul initial_state)) = true
     ↔ startswith (lit "- ") (strip (rstrip (lit "- a"))) = true).
Proof.
  assert (H : render_line ascii_digits_only initial_state (lit "- a")
              = Some (append (li_fragment (escape (lit "a"))) (enter_ul initial_state)))
    by (vm_compute; reflexivity).
  split; [exact well_formed_initial|]. split; [exact H|].
  apply (open_list_after_line ascii_digits_only initial_state _ _ well_formed_initial H).
Defined.

Lemma heading_text_short_run_witness :
  startswith (lit "#") (strip (rstrip (lit "## Notes"))) = true
  ∧ (count_leading 35 (strip (rstrip (lit "## Notes"))) ≤ 3)%nat
  ∧ render_line ascii_digits_only initial_state (lit "## Notes")
    = Some (mkRenderState
              (shell_head
               ++ [lit "<h2 style=" ++ [dquote]
                   ++ lit "font-size: 18px; margin-top: 24px; margin-bottom: 10px;"
                   ++ [dquote] ++ lit " >Notes</h2>"])
              false false).
Proof.
  assert (H1 : startswith (lit "#") (strip (rstrip (lit "## Notes"))) = true)
    by (vm_compute; reflexivity).
  assert (H2 : (count_leading 35 (strip (rstrip (lit "## Notes"))) ≤ 3)%nat)
    by (vm_compute; lia).
  split; [exact H1|]. split; [exact H2|].
  destruct (heading_text_short_run ascii_digits_only initial_state _ H1 H2)
    as (level & style & Hl & _ & Hst & _ & Hr).
  rewrite Hr. vm_compute in Hl. subst level.
  vm_compute in Hst. injection Hst as <-.
  vm_compute. reflexivity.
Defined.

Lemma heading_text_long_run_witness :
  startswith (lit "#") (strip (rstrip (lit "##### Deep"))) = true
  ∧ (3 ≤ count_leading 35 (strip (rstrip (lit "##### Deep"))))%nat
  ∧ render_line ascii_digits_only initial_state (lit "##### Deep")
    = Some (mkRenderState
              (shell_head
               ++ [lit "<h3 style=" ++ [dquote]
                   ++ lit "font-size: 16px; margin-top: 20px; margin-bottom: 8px;"
                   ++ [dquote] ++ lit " >## Deep</h3>"])
              false false).
Proof.
  assert (H1 : startswith (lit "#") (strip (rstrip (lit "##### Deep"))) = true)
    by (vm_compute; reflexivity).
  assert (H2 : (3 ≤ count_leading 35 (strip (rstrip (lit "##### Deep"))))%nat)
    by (vm_compute; lia).
  split; [exact H1|]. split; [exact H2|].
  rewrite (heading_text_long_run ascii_digits_only initial_state _ H1 H2).
  vm_compute. reflexivity.
Defined.

Lemma surrounding_space_ignored_witness :
  forallb isspace (lit "    ") = true
  ∧ forallb isspace [0x09; 0x20] = true
  ∧ render_line ascii_digits_only initial_state (lit "    " ++ lit "- a" ++ [0x09; 0x20])
    = render_line ascii_digits_only initial_state (lit "- a").
Proof.
  split; [vm_compute; reflexivity|]. split; [vm_compute; reflexivity|].
  apply (surrounding_space_ignored ascii_digits_only initial_state);
    vm_compute; reflexivity.
Defined.

Lemma unreadable_source_raises_witness :
  files sample_world !! lit "absent.md" = None
  ∧ convert_to_pdf ascii_digits_only sample_platform (lit "absent.md") (lit "out.pdf")
      sample_world
    = (Raised (FileNotFoundError (lit "absent.md")), sample_world)
  ∧ files sample_world !! path_str undecodable_platform (lit "notes.md")
    = Some (lit "# Title")
  ∧ utf8_decode undecodable_platform (lit "# Title") = None
  ∧ run_script ascii_digits_only undecodable_platform
      [lit "make_pdf.py"; lit "notes.md"; lit "out.pdf"] sample_world
    = (1%Z,
       mkWorld (files sample_world) (stdout sample_world)
               (stderr sample_world ++ [lit "Traceback (most recent call last):"])
               (spawned sample_world)).
Proof.
  assert (H : files sample_world !! lit "absent.md" = None) by (vm_compute; reflexivity).
  assert (Hf : files sample_world !! path_str undecodable_platform (lit "notes.md")
               = Some (lit "# Title")) by (vm_compute; reflexivity).
  split; [exact H|]. split.
  { apply (proj1 (unreadable_source_raises ascii_digits_only sample_platform
                    (lit "make_pdf.py") (lit "absent.md") (lit "out.pdf") sample_world)
                 _ _ H). }
  split; [exact Hf|]. split; [reflexivity|].
  apply (proj2 (unreadable_source_raises ascii_digits_only undecodable_platform
                  (lit "make_pdf.py") (lit "notes.md") (lit "out.pdf") sample_world)
               (lit "# Title") Hf eq_refl).
Defined.


Lemma line_endings_equivalent_witness :
  Forall (λ l : str, no_break l = true) [lit "# Title"; lit ""]
  ∧ no_break (lit "Hello world.") = true
  ∧ markdown_to_html ascii_digits_only (join crlf ([lit "# Title"; lit ""] ++ [lit "Hello world."]))
    = markdown_to_html ascii_digits_only
        (join newline ([lit "# Title"; lit ""] ++ [lit "Hello world."]))
  ∧ markdown_to_html ascii_digits_only
      (join newline ([lit "# Title"; lit ""] ++ [lit "Hello world."]) ++ newline)
    = markdown_to_html ascii_digits_only
        (join newline ([lit "# Title"; lit ""] ++ [lit "Hello world."])).
Proof.
  assert (HF : Forall (λ l : str, no_break l = true) [lit "# Title"; lit ""])
    by (repeat constructor).
  assert (Hx : no_break (lit "Hello world.") = true) by (vm_compute; reflexivity).
  split; [exact HF|]. split; [exact Hx|].
  apply (line_endings_equivalent ascii_digits_only _ _ HF Hx).
  vm_compute. discriminate.
Defined.

Lemma render_line_appends_witness :
  well_formed initial_state
  ∧ render_line ascii_digits_only initial_state (lit "1. a")
    = Some (append (li_fragment (escape (lit "a"))) (enter_ol initial_state))
  ∧ ∃ added : list str,
      html_lines (append (li_fragment (escape (lit "a"))) (enter_ol initial_state))
      = html_lines initial_state ++ added
      ∧ (1 ≤ length added ≤ 3)%nat.
Proof.
  assert (H : render_line ascii_digits_only initial_state (lit "1. a")
              = Some (append (li_fragment (escape (lit "a"))) (enter_ol initial_state)))
    by (vm_compute; reflexivity).
  split; [exact well_formed_initial|]. split; [exact H|].
  apply (render_line_appends ascii_digits_only initial_state _ _ well_formed_initial H).
Defined.
